(** * Verification model of the odoo-multi-environment installer scripts

    Shallow embedding of [install.py], [install_odoo.py], [verify_odoo.py]
    and of the [lib/environment.py] module embedded in [setup_project.py].
    Python dicts loaded from YAML are stdpp [gmap]s, exceptions are the
    left side of a sum, and the host the scripts act on is an explicit
    record threaded through the code. *)

From stdpp Require Import base gmap strings list.
From Stdlib Require Import String Ascii ZArith.

Open Scope string_scope.
#[local] Set Warnings "-register-all".

(* ===================================================================== *)
(** ** Python runtime: exceptions and string helpers                      *)
(* ===================================================================== *)

(** The exception classes that the modelled code can raise. *)
Inductive exc :=
| CalledProcessError (returncode : Z) (cmd stdout stderr : string)
| YAMLError
| TypeError
| AttributeError
| ValueError (msg : string)
| OSError.

(** A Python outcome: an exception or a value. *)
Abbreviation py A := (exc + A)%type.

Definition is_ws (c : ascii) : bool :=
  match c with
  | " "%char | "009"%char | "010"%char | "011"%char | "012"%char | "013"%char => true
  | _ => false
  end.

Fixpoint lstrip_l (l : list ascii) : list ascii :=
  match l with
  | c :: r => if is_ws c then lstrip_l r else l
  | [] => []
  end.

(** [str.strip()] *)
Definition strip (s : string) : string :=
  string_of_list_ascii
    (rev (lstrip_l (rev (lstrip_l (list_ascii_of_string s))))).

Definition upper_ascii (c : ascii) : ascii :=
  let n := nat_of_ascii c in
  if (97 <=? n)%nat && (n <=? 122)%nat then ascii_of_nat (n - 32)%nat else c.



Definition upper (s : string) : string :=
  string_of_list_ascii (map upper_ascii (list_ascii_of_string s)).

(** Decimal text of a natural number, as [str(n)] / f-string [{n}]. *)
Fixpoint digits_fuel (fuel n : nat) (acc : string) : string :=
  match fuel with
  | O => acc
  | S f =>
      let d := String (ascii_of_nat (48 + n mod 10)%nat) acc in
      if (n <? 10)%nat then d else digits_fuel f (n / 10)%nat d
  end.

Definition show_Z (z : Z) : string :=
  if (z <? 0)%Z then "-" +:+ digits_fuel 64%nat (Z.to_nat (- z)) ""
  else digits_fuel 64%nat (Z.to_nat z) "".


(* ===================================================================== *)
(** ** YAML configuration files ([install.py], load_environment_config)   *)
(* ===================================================================== *)

(** YAML scalar and sequence values, as [yaml.safe_load] returns them. *)
Inductive yval :=
| YStr (s : string)
| YInt (z : Z)
| YBool (b : bool)
| YNull
| YList (l : list yval).

(** A Python dict produced from YAML: string keys to values. *)
Abbreviation config := (gmap string yval).

(** The result of [yaml.safe_load] on a whole file. *)
Inductive yaml_doc :=
| DocNone                 (* empty file: [None] *)
| DocMap (m : config)     (* a top-level mapping *)
| DocScalar (v : yval)    (* a top-level scalar or sequence *)
| DocInvalid.             (* a syntax error: [yaml.YAMLError] *)

(** Files in the configuration directory, already parsed. *)
Abbreviation fsys := (gmap string yaml_doc).

(** Python truthiness of a YAML value. *)
Definition yval_truthy (v : yval) : bool :=
  match v with
  | YStr s => negb (String.eqb s "")
  | YInt z => negb (Z.eqb z 0%Z)
  | YBool b => b
  | YNull => false
  | YList l => negb (Nat.eqb (List.length l) 0%nat)
  end.

(** [os.path.join(a, b)] for a relative [b] that does not start with '/'. *)
Definition path_join (a b : string) : string :=
  match b with
  | String "/"%char _ => b
  | _ =>
      if String.eqb a "" then b
      else match String.get (String.length a - 1)%nat a with
           | Some "/"%char => a +:+ b
           | _ => a +:+ "/" +:+ b
           end
  end.

(** The Python value bound to [config] during load_environment_config:
    a dict, [None], or some other object loaded from the default file. *)
Inductive pyconfig :=
| PDict (m : config)
| PNone
| PScalar (v : yval).

(** Warnings logged by load_environment_config. *)
Inductive log_msg :=
| WarnDefaultMissing (path : string)
| WarnSpecificMissing (path : string).

(** The message of the [ValueError] dict.update raises for an element of
    the wrong length. *)
Definition update_seq_msg (i n : nat) : string :=
  "dictionary update sequence element #" +:+ show_Z (Z.of_nat i) +:+ " has length "
  +:+ show_Z (Z.of_nat n) +:+ "; 2 is required".

(** [dict.update(seq)] for a sequence that is not a mapping: each element
    [i] must be a sequence of length 2, a key and a value. A string is a
    sequence of one-character strings; a number, boolean or null is no
    sequence ([TypeError]); a list key is unhashable ([TypeError]). The
    model's dicts have string keys: a pair whose key is a number, boolean
    or null (which Python would insert) is not recorded; the scripts only
    read string keys. *)
Fixpoint pairs_update (c : config) (i : nat) (l : list yval) : py config :=
  match l with
  | [] => inr c
  | x :: r =>
      match x with
      | YStr (String k (String v EmptyString)) =>
          pairs_update (<[String k EmptyString := YStr (String v EmptyString)]> c) (S i) r
      | YStr s => inl (ValueError (update_seq_msg i (String.length s)))
      | YList [YStr k; v] => pairs_update (<[k := v]> c) (S i) r
      | YList [YList _; _] => inl TypeError
      | YList [_; _] => pairs_update c (S i) r
      | YList l' => inl (ValueError (update_seq_msg i (List.length l')))
      | YInt _ | YBool _ | YNull => inl TypeError
      end
  end.

(** [config.update(env_config)] guarded by [if env_config:]. *)
Definition update_with (c : pyconfig) (d : yaml_doc) : py pyconfig :=
  match d with
  | DocNone => inr c
  | DocInvalid => inl YAMLError
  | DocMap m =>
      if decide (m = ∅) then inr c
      else match c with
           | PDict base => inr (PDict (m ∪ base))   (* override wins *)
           | _ => inl AttributeError                (* None/str has no update *)
           end
  | DocScalar v =>
      if yval_truthy v then
        match c with
        | PDict base =>
            match v with
            | YStr _ => inl (ValueError (update_seq_msg 0 1))   (* its first character *)
            | YList l =>
                match pairs_update base 0 l with
                | inl e => inl e
                | inr m => inr (PDict m)
                end
            | _ => inl TypeError                   (* an int or bool is not iterable *)
            end
        | _ => inl AttributeError
        end
      else inr c
  end.

Definition config_path (config_dir env_name : string) : string :=
  path_join config_dir (env_name +:+ ".yaml").

Definition default_path (config_dir : string) : string :=
  path_join config_dir "default_config.yaml".

(** [install.py]: load_environment_config(env_name, config_dir).
    Returns the warnings logged and the outcome. *)
Definition load_environment_config (fs : fsys) (env_name config_dir : string)
  : list log_msg * py config :=
  let config_path := config_path config_dir env_name in
  let default_path := default_path config_dir in
  let '(w1, c0) :=
    match fs !! default_path with
    | Some DocInvalid => ([], inl YAMLError)
    | Some DocNone => ([], inr PNone)
    | Some (DocMap m) => ([], inr (PDict m))
    | Some (DocScalar v) => ([], inr (PScalar v))
    | None => ([WarnDefaultMissing default_path], inr (PDict ∅))
    end in
  match c0 with
  | inl e => (w1, inl e)
  | inr c =>
      let '(w2, c1) :=
        match fs !! config_path with
        | Some d => ([], update_with c d)
        | None => ([WarnSpecificMissing config_path], inr c)
        end in
      match c1 with
      | inl e => ((w1 ++ w2)%list, inl e)
      | inr (PDict m) => ((w1 ++ w2)%list, inr (<["environment" := YStr env_name]> m))
      | inr _ => ((w1 ++ w2)%list, inl TypeError)   (* item assignment on None/str *)
      end
  end.


(* ===================================================================== *)
(** ** [lib/environment.py] (embedded in [setup_project.py]): Environment *)
(* ===================================================================== *)

(** [Environment._get_default_prefix] *)
Definition get_default_prefix (name : string) : string :=
  if String.eqb name "production" then "prod_"
  else if String.eqb name "uat" then "uat_"
  else if String.eqb name "testing" then "test_"
  else if String.eqb name "training" then "train_"
  else name +:+ "_".

Definition required_keys : list string := ["odoo_version"; "port"; "prefix"].

(** [Environment._validate_config]: the first missing key raises. *)
Fixpoint validate_keys (name : string) (keys : list string) (cfg : config) : py unit :=
  match keys with
  | [] => inr tt
  | k :: ks =>
      match cfg !! k with
      | None => inl (ValueError ("Configuración incompleta para el entorno " +:+ name
                                 +:+ ": falta '" +:+ k +:+ "'"))
      | Some _ => validate_keys name ks cfg
      end
  end.

(** [Environment.__init__] with [remote=False]: inject the prefix and
    domain defaults into the config dict, then validate it. *)
Definition inject_defaults (name : string) (cfg : config) : config :=
  let cfg1 := match cfg !! "prefix" with
              | Some _ => cfg
              | None => <["prefix" := YStr (get_default_prefix name)]> cfg
              end in
  match cfg1 !! "domain" with
  | Some _ => cfg1
  | None => <["domain" := YStr (name +:+ ".example.com")]> cfg1
  end.

Definition environment_init (name : string) (cfg : config) : py config :=
  let cfg2 := inject_defaults name cfg in
  match validate_keys name required_keys cfg2 with
  | inl e => inl e
  | inr _ => inr cfg2
  end.

(** Environment.__init__ with its [remote] flag. With [remote=True] it
    first builds the RemoteExecutor of lib/remote.py (a module the
    repository does not contain) from the configuration; that constructor
    is [remote_executor] here, and an exception it raises propagates.
    Then, in both cases, it injects the defaults and validates. *)
Definition environment_new (remote_executor : config → py unit) (remote : bool)
    (name : string) (cfg : config) : py config :=
  if remote then
    match remote_executor cfg with
    | inl e => inl e
    | inr _ => environment_init name cfg
    end
  else environment_init name cfg.

(** Configuration files that hold what the format expects: the default
    file, when present, a mapping; the per-target file, when present, a
    mapping or empty. *)
Definition wf_config_files (fs : fsys) (config_dir env_name : string) : Prop :=
  (∀ d, fs !! default_path config_dir = Some d → ∃ m, d = DocMap m) ∧
  (∀ d, fs !! config_path config_dir env_name = Some d → d = DocNone ∨ ∃ m, d = DocMap m).

(* ===================================================================== *)
(** ** The host and the shell commands the scripts run                    *)
(* ===================================================================== *)

(** States reported by [systemctl is-active]. *)
Inductive ustate := UActive | UReloading | UInactive | UFailed | UActivating | UDeactivating.

Definition ustate_name (u : ustate) : string :=
  match u with
  | UActive => "active" | UReloading => "reloading" | UInactive => "inactive"
  | UFailed => "failed" | UActivating => "activating" | UDeactivating => "deactivating"
  end.

(** The part of the host the commands observe or change. *)
Record host := {
  h_users : list string;             (* system users *)
  h_roles : list string;             (* PostgreSQL roles *)
  h_dbs : list string;               (* PostgreSQL databases *)
  h_units : list (string * ustate);  (* systemd units and their state *)
  h_listen : list string;            (* lines printed by [ss -tulpn] *)
  h_paths : list string              (* existing filesystem paths *)
}.

(** A finished process: [subprocess.CompletedProcess] with text output. *)
Record completed := { returncode : Z; stdout : string; stderr : string }.

(** The shell commands of the scripts, one constructor per command text. *)
Inductive cmd :=
| IdUOrNo (u : string)                (* id -u u > /dev/null 2>&1 || echo 'no' *)
| Useradd (home u : string)           (* useradd -m -d home -U -r -s /bin/bash u *)
| PgRoleOrNo (r : string)             (* sudo -u postgres psql -tAc "SELECT 1 ..." | grep -q 1 || echo 'no' *)
| Createuser (r : string)             (* sudo -u postgres createuser -s r *)
| AlterUserPassword (r pw : string)   (* sudo -u postgres psql -c "ALTER USER r WITH PASSWORD 'pw'" *)
| PgDbOrNo (d : string)               (* sudo -u postgres psql -lqt | cut -d \| -f 1 | grep -qw d || echo 'no' *)
| Createdb (owner d : string)         (* sudo -u postgres createdb --owner=owner d *)
| IsActiveOrInactive (svc : string)   (* systemctl is-active svc || echo 'inactive' *)
| SsGrepOrNo (port : Z)               (* ss -tulpn | grep ':port' || echo 'no' *)
| IdOrNo (u : string)                 (* id u 2>/dev/null || echo 'no' *)
| PgDbYesNo (d : string)              (* sudo -u postgres psql -lqt | cut -d \| -f 1 | grep -qw d && echo 'yes' || echo 'no' *)
| Sudo (c : cmd).                     (* sudo c *)

Definition dq : string := String (ascii_of_nat 34) EmptyString.

(** The command text passed to [subprocess.run(..., shell=True)]. *)
Fixpoint render (c : cmd) : string :=
  match c with
  | IdUOrNo u => "id -u " +:+ u +:+ " > /dev/null 2>&1 || echo 'no'"
  | Useradd home u => "useradd -m -d " +:+ home +:+ " -U -r -s /bin/bash " +:+ u
  | PgRoleOrNo r => "sudo -u postgres psql -tAc " +:+ dq +:+ "SELECT 1 FROM pg_roles WHERE rolname='"
                    +:+ r +:+ "'" +:+ dq +:+ " | grep -q 1 || echo 'no'"
  | Createuser r => "sudo -u postgres createuser -s " +:+ r
  | AlterUserPassword r pw => "sudo -u postgres psql -c " +:+ dq +:+ "ALTER USER " +:+ r
                              +:+ " WITH PASSWORD '" +:+ pw +:+ "'" +:+ dq
  | PgDbOrNo d => "sudo -u postgres psql -lqt | cut -d \| -f 1 | grep -qw " +:+ d +:+ " || echo 'no'"
  | Createdb o d => "sudo -u postgres createdb --owner=" +:+ o +:+ " " +:+ d
  | IsActiveOrInactive s => "systemctl is-active " +:+ s +:+ " || echo 'inactive'"
  | SsGrepOrNo p => "ss -tulpn | grep ':" +:+ show_Z p +:+ "' || echo 'no'"
  | IdOrNo u => "id " +:+ u +:+ " 2>/dev/null || echo 'no'"
  | PgDbYesNo d => "sudo -u postgres psql -lqt | cut -d \| -f 1 | grep -qw " +:+ d
                   +:+ " && echo 'yes' || echo 'no'"
  | Sudo c => "sudo " +:+ render c
  end.

Definition mem (x : string) (l : list string) : bool := existsb (String.eqb x) l.

(** Word constituents of [grep -w]: letters, digits and the underscore
    (ASCII; the scripts' names are ASCII). *)
Definition is_word_char (c : ascii) : bool :=
  let n := nat_of_ascii c in
  (((48 <=? n) && (n <=? 57)) || ((65 <=? n) && (n <=? 90)) ||
   ((97 <=? n) && (n <=? 122)) || (n =? 95))%nat.

(** The character next to a match is no word constituent (or there is none). *)
Definition non_word (o : option ascii) : bool :=
  match o with None => true | Some c => negb (is_word_char c) end.

(** [grep -w pat] on one line: some occurrence of [pat] is neither
    preceded nor followed by a word constituent. The pattern is taken
    literally (the scripts pass <prefix>odoo, which holds no regular
    expression operator). *)
Definition grep_w (pat line : string) : bool :=
  existsb (λ i, String.eqb (substring i (String.length pat) line) pat &&
                 match i with 0 => true | S j => non_word (String.get j line) end &&
                 non_word (String.get (i + String.length pat) line))
          (seq 0 (S (String.length line - String.length pat))).

(** [psql -lqt | cut -d \| -f 1 | grep -qw d]: the first column of
    [psql -lqt] holds each database name padded with blanks; the pipeline
    succeeds when [grep -w d] matches one of these lines. *)
Definition db_listed (h : host) (d : string) : bool :=
  existsb (λ n, grep_w d (" " +:+ n +:+ " ")) (h_dbs h).

Definition unit_state (h : host) (svc : string) : ustate :=
  match find (λ p, String.eqb (fst p) svc) (h_units h) with
  | Some (_, st) => st
  | None => UInactive       (* systemctl reports unknown units as inactive *)
  end.

(** [substring] test of grep without options. *)
Definition contains (pat s : string) : bool :=
  match String.index 0 pat s with Some _ => true | None => false end.

Fixpoint join_lines (l : list string) : string :=
  match l with [] => "" | x :: r => x +:+ "
" +:+ join_lines r end.

Definition nl : string := "
".

Definition ok_out (out : string) : completed := {| returncode := 0; stdout := out; stderr := "" |}.
Definition fail_err (rc : Z) (err : string) : completed := {| returncode := rc; stdout := ""; stderr := err |}.

Definition add_user (u : string) (h : host) : host :=
  {| h_users := h_users h ++ [u]; h_roles := h_roles h; h_dbs := h_dbs h;
     h_units := h_units h; h_listen := h_listen h; h_paths := h_paths h |}%list.
Definition add_role (r : string) (h : host) : host :=
  {| h_users := h_users h; h_roles := h_roles h ++ [r]; h_dbs := h_dbs h;
     h_units := h_units h; h_listen := h_listen h; h_paths := h_paths h |}%list.
Definition add_db (d : string) (h : host) : host :=
  {| h_users := h_users h; h_roles := h_roles h; h_dbs := h_dbs h ++ [d];
     h_units := h_units h; h_listen := h_listen h; h_paths := h_paths h |}%list.

(** What the shell does with each command on the host (privileges are
    not modelled: [sudo c] behaves as [c]). The creation commands fail
    only for the reasons recorded on the host (an existing user, role or
    database, a missing owner role); other failures (a server that is
    down, an existing group of the user's name, ...) are outside the model,
    so results about a whole run are stated for runs whose creation
    commands succeed. *)
Fixpoint sh (h : host) (c : cmd) : completed * host :=
  match c with
  | IdUOrNo u => (ok_out (if mem u (h_users h) then "" else "no" +:+ nl), h)
  | Useradd home u =>
      if mem u (h_users h) then (fail_err 9 ("useradd: user '" +:+ u +:+ "' already exists" +:+ nl), h)
      else (ok_out "", add_user u h)
  | PgRoleOrNo r => (ok_out (if mem r (h_roles h) then "" else "no" +:+ nl), h)
  | Createuser r =>
      if mem r (h_roles h) then (fail_err 1 ("createuser: error: creation of new role failed: ERROR:  role " +:+ dq +:+ r +:+ dq
                         +:+ " already exists" +:+ nl), h)
      else (ok_out "", add_role r h)
  | AlterUserPassword r _ =>
      if mem r (h_roles h) then (ok_out ("ALTER ROLE" +:+ nl), h)
      else (fail_err 1 ("ERROR:  role " +:+ dq +:+ r +:+ dq +:+ " does not exist" +:+ nl), h)
  | PgDbOrNo d => (ok_out (if db_listed h d then "" else "no" +:+ nl), h)
  | Createdb o d =>
      if mem d (h_dbs h) then (fail_err 1 ("createdb: error: database creation failed: ERROR:  database " +:+ dq +:+ d +:+ dq
                         +:+ " already exists" +:+ nl), h)
      else if mem o (h_roles h) then (ok_out "", add_db d h)
      else (fail_err 1 ("createdb: error: database creation failed: ERROR:  role " +:+ dq +:+ o +:+ dq
                              +:+ " does not exist" +:+ nl), h)
  | IsActiveOrInactive s =>
      let st := unit_state h s in
      let first := ustate_name st +:+ nl in
      match st with
      | UActive | UReloading => (ok_out first, h)
      | _ => (ok_out (first +:+ "inactive" +:+ nl), h)
      end
  | SsGrepOrNo p =>
      let hits := List.filter (contains (":" +:+ show_Z p)) (h_listen h) in
      match hits with
      | [] => (ok_out ("no" +:+ nl), h)
      | _ => (ok_out (join_lines hits), h)
      end
  | IdOrNo u =>
      (ok_out (if mem u (h_users h) then "uid(" +:+ u +:+ ") gid(" +:+ u +:+ ")" +:+ nl
               else "no" +:+ nl), h)
  | PgDbYesNo d => (ok_out ((if db_listed h d then "yes" else "no") +:+ nl), h)
  | Sudo c' => sh h c'
  end.

(** The world a script runs in: the host and the commands run so far. *)
Record world := { w_host : host; w_log : list cmd }.

(** Python statements over the world, which may raise. *)
Definition M (A : Type) : Type := world → py A * world.

#[global] Instance M_ret : MRet M := λ A x w, (inr x, w).
#[global] Instance M_bind : MBind M := λ A B f m w,
  match m w with
  | (inl e, w') => (inl e, w')
  | (inr x, w') => f x w'
  end.

(** Run one command through the shell and log it. *)
Definition exec_cmd (c : cmd) : world → completed * world := λ w,
  let '(p, h') := sh (w_host w) c in
  (p, {| w_host := h'; w_log := (w_log w ++ [c])%list |}).

(** [str(CalledProcessError)]: the message names the command and the
    status; it does not include the captured output. (For a negative
    status Python names the signal; here only its number.) *)
Definition cpe_str (cmdtext : string) (rc : Z) : string :=
  if (rc <? 0)%Z then "Command '" +:+ cmdtext +:+ "' died with signal " +:+ show_Z (- rc) +:+ "."
  else "Command '" +:+ cmdtext +:+ "' returned non-zero exit status " +:+ show_Z rc +:+ ".".

(** [install_odoo.py] run_command(cmd, check): [subprocess.run] raises
    CalledProcessError on a non-zero status when [check]; the handler
    logs it and re-raises; otherwise the stripped stdout is returned. *)
Definition run_command_odoo_result (cmdtext : string) (check : bool) (p : completed) : py string :=
  if check && negb (Z.eqb (returncode p) 0) then
    inl (CalledProcessError (returncode p) cmdtext (stdout p) (stderr p))
  else inr (strip (stdout p)).

Definition run_command_odoo (c : cmd) (check : bool) : M string := λ w,
  let '(p, w') := exec_cmd c w in (run_command_odoo_result (render c) check p, w').

(** [install.py] run_command(command, check, sudo): never raises; returns
    (success, text). *)
Definition run_command_install_result (cmdtext : string) (check : bool) (p : completed) : bool * string :=
  if check && negb (Z.eqb (returncode p) 0) then (false, cpe_str cmdtext (returncode p))
  else if Z.eqb (returncode p) 0 then (true, stdout p)
  else (false, stderr p).

Definition run_command_install (command : cmd) (check sudo : bool) : M (bool * string) := λ w,
  let c := if sudo then Sudo command else command in
  let '(p, w') := exec_cmd c w in (inr (run_command_install_result (render c) check p), w').

(** [verify_odoo.py] run_command(cmd, check): returns the stripped
    stdout, or "" when a checked command fails. Probes only read. *)
Definition run_command_verify (c : cmd) (check : bool) (h : host) : string :=
  let p := fst (sh h c) in
  if check && negb (Z.eqb (returncode p) 0) then "" else strip (stdout p).

(* ===================================================================== *)
(** ** Check-then-create steps of setup_environment                       *)
(* ===================================================================== *)

(** [install_odoo.py] setup_environment, step 1: the system user. *)
Definition ensure_user_odoo (prefix : string) : M unit :=
  let odoo_user := prefix +:+ "odoo" in
  let odoo_home := "/opt/" +:+ prefix +:+ "odoo" in
  user_exists ← run_command_odoo (IdUOrNo odoo_user) false;
  if String.eqb user_exists "no" then
    _ ← run_command_odoo (Sudo (Useradd odoo_home odoo_user)) true; mret tt
  else mret tt.

(** [install_odoo.py] setup_environment, step 5: the PostgreSQL role. *)
Definition ensure_pg_role_odoo (env_name prefix : string) : M unit :=
  let db_user := prefix +:+ "odoo" in
  let db_password := "odoo_" +:+ env_name +:+ "_pass" in
  pg_user_exists ← run_command_odoo (PgRoleOrNo db_user) false;
  if String.eqb pg_user_exists "no" then
    _ ← run_command_odoo (Createuser db_user) true;
    _ ← run_command_odoo (AlterUserPassword db_user db_password) true; mret tt
  else mret tt.

(** [install_odoo.py] setup_environment, step 5: the database. *)
Definition ensure_db_odoo (prefix : string) : M unit :=
  let db_user := prefix +:+ "odoo" in
  let db_name := prefix +:+ "odoo" in
  db_exists ← run_command_odoo (PgDbOrNo db_name) false;
  if String.eqb db_exists "no" then
    _ ← run_command_odoo (Createdb db_user db_name) true; mret tt
  else mret tt.

(** [str(v)] of a YAML value, as an f-string interpolates it. *)
Fixpoint py_str (v : yval) : string :=
  match v with
  | YStr s => s
  | YInt z => show_Z z
  | YBool b => if b then "True" else "False"
  | YNull => "None"
  | YList l => "[" +:+ concat ", " (map py_str l) +:+ "]"
  end.

(** [config.get(key, default)] interpolated into a command. *)
Definition config_get_str (cfg : config) (key default : string) : string :=
  match cfg !! key with Some v => py_str v | None => default end.

Definition install_prefix (env_name : string) (cfg : config) : string :=
  config_get_str cfg "prefix" (env_name +:+ "_").
Definition install_user (env_name : string) (cfg : config) : string :=
  config_get_str cfg "odoo_user" (install_prefix env_name cfg +:+ "odoo").
Definition install_home (env_name : string) (cfg : config) : string :=
  config_get_str cfg "odoo_home" ("/opt/" +:+ install_prefix env_name cfg +:+ "odoo").

(** [install.py] setup_environment, step 3: the system user. The check's
    first component is run_command's success flag. *)
Definition ensure_user_install (env_name : string) (cfg : config) : M unit :=
  let odoo_user := install_user env_name cfg in
  let odoo_home := install_home env_name cfg in
  r ← run_command_install (IdUOrNo odoo_user) false false;
  let '(user_exists, _) := r in
  if negb user_exists then
    _ ← run_command_install (Useradd odoo_home odoo_user) true true; mret tt
  else mret tt.

(** Creation commands in a command log. *)
Fixpoint is_create (c : cmd) : bool :=
  match c with
  | Useradd _ _ | Createuser _ | Createdb _ _ => true
  | Sudo c' => is_create c'
  | _ => false
  end.

Definition creations (l : list cmd) : nat := List.length (List.filter is_create l).

(* ===================================================================== *)
(** ** [verify_odoo.py]                                                   *)
(* ===================================================================== *)

Definition check_service (h : host) (service_name : string) : bool :=
  String.eqb (run_command_verify (IsActiveOrInactive service_name) false h) "active".

Definition check_port (h : host) (port : Z) : bool * string :=
  let result := run_command_verify (SsGrepOrNo port) false h in
  (negb (String.eqb result "no"), result).

Definition check_user (h : host) (username : string) : bool :=
  negb (String.eqb (run_command_verify (IdOrNo username) false h) "no").

Definition check_database (h : host) (db_name : string) : bool :=
  String.eqb (run_command_verify (PgDbYesNo db_name) false h) "yes".

(** [os.path.exists] *)
Definition path_exists (h : host) (p : string) : bool := mem p (h_paths h).

(** One row of the verification table. *)
Record report := {
  service_ok : bool; port_ok : bool; user_ok : bool; db_ok : bool;
  config_ok : bool; nginx_ok : bool; status_ok : bool
}.

(** The body of the loop of [verify_odoo.py] main for one environment. *)
Definition audit_env (h : host) (prefix : string) (port : Z) : report :=
  let service_ok := check_service h (prefix +:+ "odoo.service") in
  let port_ok := fst (check_port h port) in
  let user_ok := check_user h (prefix +:+ "odoo") in
  let db_ok := check_database h (prefix +:+ "odoo") in
  let config_ok := path_exists h ("/etc/" +:+ prefix +:+ "odoo/odoo.conf") in
  let nginx_ok := path_exists h ("/etc/nginx/sites-enabled/" +:+ prefix +:+ "odoo") in
  {| service_ok := service_ok; port_ok := port_ok; user_ok := user_ok; db_ok := db_ok;
     config_ok := config_ok; nginx_ok := nginx_ok;
     status_ok := forallb id [service_ok; port_ok; user_ok; db_ok; config_ok; nginx_ok] |}.

(** The environments table of [verify_odoo.py] main. *)
Definition verify_environments : list (string * (string * Z)) :=
  [("production", ("prod_", 8069%Z)); ("uat", ("uat_", 8070%Z));
   ("testing", ("test_", 8071%Z)); ("training", ("train_", 8072%Z))].

Definition verify_main (h : host) (selected : list string) : list (string * report) :=
  omap (λ e, match find (λ p, String.eqb (fst p) e) verify_environments with
             | Some (_, (prefix, port)) => Some (e, audit_env h prefix port)
             | None => None
             end) selected.

Definition empty_host : host :=
  {| h_users := []; h_roles := []; h_dbs := []; h_units := []; h_listen := []; h_paths := [] |}.

(* ===================================================================== *)
(** ** [install_odoo.py]: ENVIRONMENTS and the names setup_environment derives *)
(* ===================================================================== *)

Record env_config := { e_prefix : string; e_port : Z; e_domain : string; e_memory_limit : string }.

Definition ENVIRONMENTS : list (string * env_config) :=
  [("production", {| e_prefix := "prod_"; e_port := 8069; e_domain := "production.example.com"; e_memory_limit := "4G" |});
   ("uat", {| e_prefix := "uat_"; e_port := 8070; e_domain := "uat.example.com"; e_memory_limit := "2G" |});
   ("testing", {| e_prefix := "test_"; e_port := 8071; e_domain := "testing.example.com"; e_memory_limit := "2G" |});
   ("training", {| e_prefix := "train_"; e_port := 8072; e_domain := "training.example.com"; e_memory_limit := "2G" |})].

(** [ENVIRONMENTS[env_name]] *)
Definition env_lookup (env_name : string) : option env_config :=
  match find (λ p, String.eqb (fst p) env_name) ENVIRONMENTS with
  | Some (_, c) => Some c
  | None => None
  end.

(** The host resources setup_environment names for one environment. *)
Record resources := {
  odoo_user : string; odoo_home : string; odoo_log_dir : string; odoo_config_dir : string;
  odoo_addons_dir : string; venv_dir : string; db_user : string; db_name : string;
  config_file : string; logfile : string; service_file : string; service_unit : string;
  nginx_conf : string; nginx_enabled : string; upstream : string; upstream_chat : string;
  access_log : string; error_log : string; module_dir : string; server_name : string;
  http_port : Z; longpolling_port : Z
}.

Definition derive (env_name : string) (c : env_config) : resources :=
  let prefix := e_prefix c in
  let home := "/opt/" +:+ prefix +:+ "odoo" in
  let log_dir := "/var/log/" +:+ prefix +:+ "odoo" in
  let config_dir := "/etc/" +:+ prefix +:+ "odoo" in
  let addons := home +:+ "/addons" in
  {| odoo_user := prefix +:+ "odoo"; odoo_home := home; odoo_log_dir := log_dir;
     odoo_config_dir := config_dir; odoo_addons_dir := addons; venv_dir := home +:+ "/venv";
     db_user := prefix +:+ "odoo"; db_name := prefix +:+ "odoo";
     config_file := config_dir +:+ "/odoo.conf"; logfile := log_dir +:+ "/odoo-server.log";
     service_file := "/etc/systemd/system/" +:+ prefix +:+ "odoo.service";
     service_unit := prefix +:+ "odoo.service";
     nginx_conf := "/etc/nginx/sites-available/" +:+ prefix +:+ "odoo";
     nginx_enabled := "/etc/nginx/sites-enabled/" +:+ prefix +:+ "odoo";
     upstream := prefix +:+ "odoo"; upstream_chat := prefix +:+ "odoo-chat";
     access_log := "/var/log/nginx/" +:+ prefix +:+ "odoo-access.log";
     error_log := "/var/log/nginx/" +:+ prefix +:+ "odoo-error.log";
     module_dir := addons +:+ "/crm_contacto_comercial";
     server_name := e_domain c;
     http_port := e_port c; longpolling_port := e_port c + 1000 |}.

Definition resource_names (r : resources) : list string :=
  [odoo_user r; odoo_home r; odoo_log_dir r; odoo_config_dir r; odoo_addons_dir r; venv_dir r;
   db_user r; db_name r; config_file r; logfile r; service_file r; service_unit r;
   nginx_conf r; nginx_enabled r; upstream r; upstream_chat r; access_log r; error_log r;
   module_dir r; server_name r].

Definition resource_ports (r : resources) : list Z := [http_port r; longpolling_port r].

Definition disjoint_names (l1 l2 : list string) : bool := forallb (λ x, negb (mem x l2)) l1.

Definition disjoint_ports (l1 l2 : list Z) : bool :=
  forallb (λ x, negb (existsb (Z.eqb x) l2)) l1.

(* ===================================================================== *)
(** ** [install_odoo.py]: the generated artifacts (steps 6 to 8)          *)
(* ===================================================================== *)

(** The f-string of step 6. *)
Definition config_content (env_name prefix : string) (port : Z) : string :=
  let r := derive env_name {| e_prefix := prefix; e_port := port; e_domain := ""; e_memory_limit := "" |} in
  "[options]
; This is the password that allows database operations:
admin_passwd = admin_secure_password
db_host = localhost
db_port = 5432
db_user = " +:+ db_user r +:+ "
db_password = odoo_" +:+ env_name +:+ "_pass
dbfilter = " +:+ db_name r +:+ "
addons_path = " +:+ odoo_home r +:+ "/odoo/addons," +:+ odoo_addons_dir r +:+ "
logfile = " +:+ odoo_log_dir r +:+ "/odoo-server.log
log_level = info
proxy_mode = True
http_port = " +:+ show_Z port +:+ "
longpolling_port = " +:+ show_Z (port + 1000) +:+ "
workers = 2
limit_memory_hard = 2684354560
limit_memory_soft = 2147483648
limit_time_cpu = 600
limit_time_real = 1200
max_cron_threads = 1
".



(** The filesystem the artifacts are written to: file contents, owners
    and permission bits (as given to chmod), and symbolic links. *)
Record afs := {
  a_content : gmap string string;
  a_owner : gmap string string;
  a_mode : gmap string string;
  a_links : gmap string string
}.

(** File operations of the artifact steps: Python writes and the [sudo]
    commands run through run_command. *)
Inductive fop :=
| PyWrite (path text : string)      (* with open(path, "w") as f: f.write(text) *)
| Mv (src dst : string)             (* sudo mv src dst *)
| Chown (owner path : string)       (* sudo chown owner path *)
| Chmod (mode path : string)        (* sudo chmod mode path *)
| LnSf (target dir : string)        (* sudo ln -sf target dir *)
| DaemonReload                      (* sudo systemctl daemon-reload *)
| Enable (unit : string).           (* sudo systemctl enable unit *)

Fixpoint basename_l (l acc : list ascii) : list ascii :=
  match l with
  | [] => rev acc
  | "/"%char :: r => basename_l r []
  | c :: r => basename_l r (c :: acc)
  end.

Definition basename (p : string) : string :=
  string_of_list_ascii (basename_l (list_ascii_of_string p) []).

(** One operation. A file Python creates belongs to [invoker] and gets
    [cmode], the mode the invoking process's umask leaves of 666 (644 under
    the usual umask 022); an existing one keeps its owner and mode; [mv]
    keeps the source's owner and mode. *)
Definition exec_fop (invoker cmode : string) (a : afs) (o : fop) : afs :=
  match o with
  | PyWrite p t =>
      match a_content a !! p with
      | Some _ => {| a_content := <[p := t]> (a_content a); a_owner := a_owner a;
                     a_mode := a_mode a; a_links := a_links a |}
      | None => {| a_content := <[p := t]> (a_content a); a_owner := <[p := invoker]> (a_owner a);
                   a_mode := <[p := cmode]> (a_mode a); a_links := a_links a |}
      end
  | Mv s d =>
      match a_content a !! s with
      | Some t =>
          {| a_content := <[d := t]> (delete s (a_content a));
             a_owner := match a_owner a !! s with
                        | Some o => <[d := o]> (delete s (a_owner a))
                        | None => delete s (a_owner a) end;
             a_mode := match a_mode a !! s with
                       | Some m => <[d := m]> (delete s (a_mode a))
                       | None => delete s (a_mode a) end;
             a_links := a_links a |}
      | None => a
      end
  | Chown o p =>
      match a_content a !! p with
      | Some _ => {| a_content := a_content a; a_owner := <[p := o]> (a_owner a);
                     a_mode := a_mode a; a_links := a_links a |}
      | None => a
      end
  | Chmod m p =>
      match a_content a !! p with
      | Some _ => {| a_content := a_content a; a_owner := a_owner a;
                     a_mode := <[p := m]> (a_mode a); a_links := a_links a |}
      | None => a
      end
  | LnSf t d => {| a_content := a_content a; a_owner := a_owner a; a_mode := a_mode a;
                   a_links := <[d +:+ basename t := t]> (a_links a) |}
  | DaemonReload | Enable _ => a
  end.

Definition exec_fops (invoker cmode : string) (a : afs) (ops : list fop) : afs :=
  fold_left (exec_fop invoker cmode) ops a.

(** [os.path.exists(path)] *)
Definition afs_exists (a : afs) (p : string) : bool := bool_decide (is_Some (a_content a !! p)).

(** Step 6: the config file. *)
Definition config_step (a : afs) (env_name prefix : string) (port : Z) : list fop :=
  let cfg := "/etc/" +:+ prefix +:+ "odoo/odoo.conf" in
  let user := prefix +:+ "odoo" in
  if afs_exists a cfg then []
  else [PyWrite "temp_config.conf" (config_content env_name prefix port);
        Mv "temp_config.conf" cfg;
        Chown (user +:+ ":" +:+ user) cfg;
        Chmod "640" cfg].




Definition empty_afs : afs := {| a_content := ∅; a_owner := ∅; a_mode := ∅; a_links := ∅ |}.


(* ===================================================================== *)
(** ** The two [main] functions: the loop over the selected targets       *)
(* ===================================================================== *)

(** Lines [main] writes to the console or the log (only the parts that
    depend on the outcome of the targets). *)
Inductive out_line :=
| OdooDone                          (* "¡Instalación completada exitosamente!" *)
| OdooAccess (env_name : string)    (* "  - Env: http://localhost:port" *)
| OdooError (e : exc)               (* "Error durante la instalación: ..." *)
| InstBanner (env_name : string)    (* "Configurando entorno: ENV" *)
| InstSummaryHeader                 (* "Resumen de instalación" *)
| InstSummary (env_name : string) (success : bool)  (* "Entorno ENV: Exitosa/Fallida" *)
| InstAllOk                         (* "¡Instalación completada exitosamente!" *)
| InstSomeFailed (failed : list string).  (* "La instalación falló para ..." *)

(** [results[env] = success] on a Python dict: an existing key keeps its
    position and takes the new value, a new key goes last. *)
Fixpoint dict_set (k : string) (v : bool) (d : list (string * bool)) : list (string * bool) :=
  match d with
  | [] => [(k, v)]
  | (k', v') :: r => if String.eqb k k' then (k, v) :: r else (k', v') :: dict_set k v r
  end.

Section Mains.
(** The host the pipelines act on, left abstract: the loops only thread it. *)
Context {H : Type}.

(** [install_odoo.py] main. [install_dependencies] and [reload_nginx] run
    first; [setup] is setup_environment, which raises or completes. The
    first list returned is the targets whose setup_environment was called,
    each with whether it completed. *)
Fixpoint odoo_loop (setup : string → H → py unit * H) (targets : list string) (h : H)
  : list (string * bool) * py unit * H :=
  match targets with
  | [] => ([], inr tt, h)
  | t :: ts =>
      match setup t h with
      | (inl e, h1) => ([(t, false)], inl e, h1)
      | (inr _, h1) =>
          let '(att, r, h2) := odoo_loop setup ts h1 in ((t, true) :: att, r, h2)
      end
  end.

Definition main_odoo (install_dependencies reload_nginx : H → py unit * H)
    (setup : string → H → py unit * H) (targets : list string) (h : H)
  : Z * list (string * bool) * list out_line * H :=
  match install_dependencies h with
  | (inl e, h1) => (1%Z, [], [OdooError e], h1)
  | (inr _, h1) =>
      match reload_nginx h1 with
      | (inl e, h2) => (1%Z, [], [OdooError e], h2)
      | (inr _, h2) =>
          match odoo_loop setup targets h2 with
          | (att, inl e, h3) => (1%Z, att, [OdooError e], h3)
          | (att, inr _, h3) => (0%Z, att, OdooDone :: map OdooAccess targets, h3)
          end
      end
  end.

(** [install.py] setup_environment: the banner is printed, then the body
    (steps 1 to 7) runs inside [try ... except Exception: return False]. *)
Definition setup_environment_install (body : string → config → H → py unit * H)
    (env_name : string) (cfg : config) (h : H) : bool * H :=
  match body env_name cfg h with
  | (inl _, h1) => (false, h1)
  | (inr _, h1) => (true, h1)
  end.

(** The loop of [install.py] main. load_environment_config is called
    outside any [try]: an exception there leaves the loop. The second list
    returned is the targets whose setup_environment was called, each with
    the host it started from. *)
Fixpoint install_loop (fs : fsys) (config_dir : string) (body : string → config → H → py unit * H)
    (targets : list string) (results : list (string * bool)) (h : H)
  : py (list (string * bool)) * list (string * H) * list out_line * H :=
  match targets with
  | [] => (inr results, [], [], h)
  | t :: ts =>
      match snd (load_environment_config fs t config_dir) with
      | inl e => (inl e, [], [], h)
      | inr cfg =>
          let '(ok, h1) := setup_environment_install body t cfg h in
          let '(r, att, out, h2) := install_loop fs config_dir body ts (dict_set t ok results) h1 in
          (r, (t, h) :: att, InstBanner t :: out, h2)
      end
  end.

Definition failed_envs (results : list (string * bool)) : list string :=
  map fst (List.filter (λ p, negb (snd p)) results).

(** [install.py] main from the dependency check on. An exception that
    escapes main ends the process with exit status 1. *)
Definition main_install (deps_ok : bool) (fs : fsys) (config_dir : string)
    (body : string → config → H → py unit * H) (targets : list string) (h : H)
  : Z * list (string * H) * list out_line * H :=
  if negb deps_ok then (1%Z, [], [], h)
  else
    match install_loop fs config_dir body targets [] h with
    | (inl e, att, out, h1) => (1%Z, att, out, h1)
    | (inr results, att, out, h1) =>
        let summary := InstSummaryHeader :: map (λ p, InstSummary (fst p) (snd p)) results in
        if forallb snd results then (0%Z, att, (out ++ summary ++ [InstAllOk])%list, h1)
        else (1%Z, att, (out ++ summary ++ [InstSomeFailed (failed_envs results)])%list, h1)
    end.

End Mains.

(** The configuration install.py's loop passes to setup_environment for a
    target whose load succeeds. *)
Definition loaded_config (fs : fsys) (config_dir env_name : string) : config :=
  match snd (load_environment_config fs env_name config_dir) with
  | inr c => c
  | inl _ => ∅
  end.

Definition load_ok (fs : fsys) (config_dir env_name : string) : bool :=
  match snd (load_environment_config fs env_name config_dir) with
  | inr _ => true
  | inl _ => false
  end.

(** What install.py records for a target attempted from host [h0]. *)
Definition att_result {H : Type} (fs : fsys) (config_dir : string)
    (body : string → config → H → py unit * H) (p : string * H) : string * bool :=
  (fst p, fst (setup_environment_install body (fst p) (loaded_config fs config_dir (fst p)) (snd p))).

(** Concrete pipelines for examples: a host counting the targets run, and
    a pipeline that raises for one chosen target. *)
Definition all_targets : list string := ["production"; "uat"; "testing"; "training"].

Definition step_ok (n : nat) : py unit * nat := (inr tt, n).

Definition setup_fails_at (bad : string) (t : string) (n : nat) : py unit * nat :=
  if String.eqb t bad then (inl OSError, S n) else (inr tt, S n).

Definition body_fails_at (bad : string) (t : string) (_ : config) (n : nat) : py unit * nat :=
  setup_fails_at bad t n.

(* ===================================================================== *)
(** ** Further code of the scripts                                        *)
(* ===================================================================== *)

(** [install_odoo.py] setup_environment, step 5 as a whole: the role,
    then the database. *)
Definition setup_database_odoo (env_name prefix : string) : M unit :=
  _ ← ensure_pg_role_odoo env_name prefix; ensure_db_odoo prefix.

(** [results[k]] on the dict built with dict_set. *)
Definition dict_get (k : string) (d : list (string * bool)) : option bool :=
  match find (λ p, String.eqb (fst p) k) d with Some (_, v) => Some v | None => None end.

(* ===================================================================== *)
(** ** [install.py] as written by [setup_project.py]                      *)
(* ===================================================================== *)

(** The outcome of load_configuration in the embedded [install.py]. *)
Inductive lc_result :=
| LcExit (code : Z)            (* [sys.exit(code)]: a SystemExit *)
| LcRaise (e : exc)            (* an exception of the kinds of [exc] *)
| LcNameError (name : string)  (* a name that is not defined *)
| LcOk (configs : list (string * config)).

(** [d[k] = v] on a Python dict kept as an association list in insertion
    order: an existing key keeps its position and takes the new value. *)
Fixpoint dict_assign {V : Type} (k : string) (v : V) (d : list (string * V)) : list (string * V) :=
  match d with
  | [] => [(k, v)]
  | (k', v') :: r => if String.eqb k k' then (k, v) :: r else (k', v') :: dict_assign k v r
  end.

(** [default_config.copy()]: dicts and lists have a copy method; [None],
    strings, numbers and booleans do not. *)
Definition lc_copy (d : yaml_doc) : py pyconfig :=
  match d with
  | DocMap m => inr (PDict m)
  | DocScalar (YList l) => inr (PScalar (YList l))
  | DocInvalid => inl YAMLError
  | _ => inl AttributeError
  end.

(** [config.update(env_config)], with no guard on [env_config]. A
    sequence is read as key-value pairs ([pairs_update]). *)
Definition lc_update (c : pyconfig) (d : yaml_doc) : py pyconfig :=
  match c with
  | PDict base =>
      match d with
      | DocMap m => inr (PDict (m ∪ base))
      | DocNone => inl TypeError                     (* 'NoneType' object is not iterable *)
      | DocScalar (YStr s) =>
          if String.eqb s "" then inr c
          else inl (ValueError (update_seq_msg 0 1))         (* its first character *)
      | DocScalar (YList l) =>
          match pairs_update base 0 l with inl e => inl e | inr m => inr (PDict m) end
      | DocScalar _ => inl TypeError                 (* int/bool object is not iterable *)
      | DocInvalid => inl YAMLError
      end
  | _ => inl AttributeError                          (* a list has no update *)
  end.

(** [config['environment'] = env] *)
Definition lc_set_environment (c : pyconfig) (env : string) : py config :=
  match c with
  | PDict m => inr (<["environment" := YStr env]> m)
  | _ => inl TypeError   (* list indices must be integers *)
  end.

(** The loop of load_configuration over the selected targets, from the
    loaded default file. [Path(config_dir) / f'{env}.yaml'] names the same
    file as config_path. *)
Fixpoint lc_loop (fs : fsys) (config_dir : string) (default_config : yaml_doc)
    (environments : list string) (configs : list (string * config)) : lc_result :=
  match environments with
  | [] => LcOk configs
  | env :: rest =>
      match fs !! config_path config_dir env with
      | None => LcNameError "logger"       (* logger.warning(...): no global [logger] *)
      | Some env_config =>
          match env_config with
          | DocInvalid => LcRaise YAMLError
          | _ =>
              match lc_copy default_config with
              | inl e => LcRaise e
              | inr c =>
                  match lc_update c env_config with
                  | inl e => LcRaise e
                  | inr c1 =>
                      match lc_set_environment c1 env with
                      | inl e => LcRaise e
                      | inr cfg => lc_loop fs config_dir default_config rest (dict_assign env cfg configs)
                      end
                  end
              end
          end
      end
  end.

(** load_configuration(args). [dir_exists] is [config_path.exists()];
    [selected] is [args.environments], the empty list standing for an
    option not given ([nargs='+'] never gives an empty list). *)
Definition load_configuration (dir_exists : bool) (fs : fsys) (config_dir : string)
    (selected : list string) : lc_result :=
  let environments := match selected with [] => all_targets | _ => selected end in
  if negb dir_exists then LcExit 1
  else match fs !! default_path config_dir with
       | None => LcExit 1
       | Some DocInvalid => LcRaise YAMLError
       | Some d => lc_loop fs config_dir d environments []
       end.

(** How the embedded main ends: [sys.exit(code)] or [return code], or an
    exception that escapes main (exit status 1 with a traceback). *)
Inductive ms_result :=
| MsExit (code : Z)
| MsUncaught (e : exc).

Section SetupMain.
Context {H : Type}.
(** validate_requirements, print_banner and print_summary come from
    [lib/installer.py] and [lib/utils.py], which the repository does not
    contain; Environment.install is left abstract as well. *)
Variable validate_requirements : H → bool * H.
Variable print_banner : list (string * config) → H → py unit * H.
Variable print_summary : list (string * config) → list (string * bool) → H → py unit * H.
Variable env_install : string → config → H → py bool * H.
(** [setup_logger(env_name, os.path.join(args.log_dir, env_name + ".log"),
    args.debug)] of lib/logger.py for one target, which may raise (an
    unwritable log file); the logger object itself is not modelled. *)
Variable setup_log : string → H → py unit * H.
(** [args.remote], and the RemoteExecutor constructor of lib/remote.py (a
    module the repository does not contain) that Environment.__init__
    calls first when it is set. *)
Variable remote : bool.
Variable remote_executor : config → H → py unit * H.

(** setup_environments: for each loaded config, in the dict's order, the
    target's logger, then Environment(name, config, logger, remote). It
    runs outside any [try]. *)
Fixpoint setup_environments (configs : list (string * config)) (h : H)
    : py (list (string * config)) * H :=
  match configs with
  | [] => (inr [], h)
  | (n, c) :: rest =>
      let '(rl, h1) := setup_log n h in
      match rl with
      | inl e => (inl e, h1)
      | inr _ =>
          let '(rx, h2) := if remote then remote_executor c h1 else (inr tt, h1) in
          match rx with
          | inl e => (inl e, h2)
          | inr _ =>
              match environment_init n c with
              | inl e => (inl e, h2)
              | inr c' =>
                  let '(r, h3) := setup_environments rest h2 in
                  match r with
                  | inl e => (inl e, h3)
                  | inr envs => (inr ((n, c') :: envs), h3)
                  end
              end
          end
      end
  end.

(** The install loop of main: an exception of [env.install()] is caught
    and recorded as [False]. *)
Fixpoint setup_install_loop (environments : list (string * config)) (results : list (string * bool))
    (h : H) : list (string * bool) * H :=
  match environments with
  | [] => (results, h)
  | (n, c) :: rest =>
      let '(r, h1) := env_install n c h in
      let success := match r with inr b => b | inl _ => false end in
      setup_install_loop rest (dict_set n success results) h1
  end.

(** main() of the embedded [install.py], from the requirements check on.
    [load] is load_configuration on the state reached. Returned: how main
    ends, the [results] dict, and the final state. *)
Definition main_setup (load : H → lc_result) (h : H) : ms_result * list (string * bool) * H :=
  let '(ok, h1) := validate_requirements h in
  if negb ok then (MsExit 1, [], h1)
  else
    match load h1 with
    | LcExit c => (MsExit c, [], h1)                      (* SystemExit is not an Exception *)
    | LcRaise _ | LcNameError _ => (MsExit 1, [], h1)     (* except Exception: sys.exit(1) *)
    | LcOk configs =>
        let '(renv, h2) := setup_environments configs h1 in
        match renv with
        | inl e => (MsUncaught e, [], h2)
        | inr environments =>
            let '(rb, h3) := print_banner environments h2 in
            match rb with
            | inl e => (MsUncaught e, [], h3)
            | inr _ =>
                let '(results, h4) := setup_install_loop environments [] h3 in
                let '(rs, h5) := print_summary environments results h4 in
                match rs with
                | inl e => (MsUncaught e, results, h5)
                | inr _ => (MsExit (if forallb snd results then 0 else 1), results, h5)
                end
            end
        end
    end.
End SetupMain.

(* ===================================================================== *)
(** ** [lib/environment.py] (embedded): Environment.status                *)
(* ===================================================================== *)

#[global] Instance ustate_eq_dec : EqDecision ustate.
Proof. solve_decision. Defined.

(** [systemctl is-active svc]: prints the unit state; status 0 when
    active or reloading, 3 otherwise. *)
Definition systemctl_is_active (h : host) (svc : string) : completed :=
  let st := unit_state h svc in
  {| returncode := match st with UActive | UReloading => 0 | _ => 3 end;
     stdout := ustate_name st +:+ nl; stderr := "" |}.

(** Environment.status. For each command, inside a [try] whose exception
    gives False: with an executor (a remote Environment),
    [self.executor.run_command(cmd, check=False).strip() == "active"],
    where [executor] stands for that run_command of lib/remote.py (not in
    the repository); without one (a local Environment),
    [subprocess.run(cmd, shell=True, capture_output=True,
    text=True).stdout.strip() == "active"]. [None] stands for the KeyError
    of [self.config['prefix']], which __init__ rules out. *)
Definition environment_status (executor : option (string → py string)) (h : host) (cfg : config)
    : option (list (string * bool)) :=
  match cfg !! "prefix" with
  | None => None
  | Some p =>
      let odoo_service := py_str p +:+ "odoo" in
      let is_active svc :=
        match executor with
        | Some run_command =>
            match run_command ("systemctl is-active " +:+ svc) with
            | inr output => String.eqb (strip output) "active"
            | inl _ => false
            end
        | None => String.eqb (strip (stdout (systemctl_is_active h svc))) "active"
        end in
      Some [("odoo_service", is_active odoo_service); ("nginx", is_active "nginx");
            ("postgres", is_active "postgresql")]
  end.

(* ===================================================================== *)
(** ** Logging setup: [lib/logger.py] and its embedded variant            *)
(* ===================================================================== *)

(** The handlers the two modules attach. *)
Inductive handler :=
| FileH (path : string)           (* logging.FileHandler(log_file) *)
| RotatingFileH (path : string)   (* RotatingFileHandler(log_file, ...) *)
| StdoutH.                        (* StreamHandler(sys.stdout) *)

(** A logging.Logger: its level (0 is NOTSET) and its own handlers. *)
Record logger := { lg_level : Z; lg_handlers : list handler }.

(** The logging module's registry of loggers by name, and the [_loggers]
    dict of the embedded module. Directory creation is left out: it does
    not touch either. *)
Record log_state := { ls_loggers : gmap string logger; ls_registry : gset string }.

Definition DEBUG : Z := 10.
Definition INFO : Z := 20.

(** [logging.getLogger(name)]: the existing logger or a new one. *)
Definition getLogger (s : log_state) (name : string) : logger :=
  match ls_loggers s !! name with
  | Some lg => lg
  | None => {| lg_level := 0; lg_handlers := [] |}
  end.

Definition store_logger (s : log_state) (name : string) (lg : logger) : log_state :=
  {| ls_loggers := <[name := lg]> (ls_loggers s); ls_registry := ls_registry s |}.

Definition set_level (lg : logger) (l : Z) : logger :=
  {| lg_level := l; lg_handlers := lg_handlers lg |}.

Definition add_handlers (lg : logger) (hs : list handler) : logger :=
  {| lg_level := lg_level lg; lg_handlers := (lg_handlers lg ++ hs)%list |}.

(** setup_logger of the embedded [lib/logger.py]. *)
Definition setup_logger (name log_file : string) (debug_mode : bool) (s : log_state) : log_state :=
  if decide (name ∈ ls_registry s) then s
  else
    let lg := set_level (getLogger s name) (if debug_mode then DEBUG else INFO) in
    match lg_handlers lg with
    | _ :: _ => store_logger s name lg
    | [] =>
        let s1 := store_logger s name (add_handlers lg [RotatingFileH log_file; StdoutH]) in
        {| ls_loggers := ls_loggers s1; ls_registry := {[ name ]} ∪ ls_registry s1 |}
    end.

(** get_logger of the embedded [lib/logger.py]. *)
Definition get_logger (name : string) (s : log_state) : log_state :=
  if decide (name ∈ ls_registry s) then s
  else
    let lg := set_level (getLogger s name) INFO in
    match lg_handlers lg with
    | _ :: _ => store_logger s name lg
    | [] => store_logger s name (add_handlers lg [StdoutH])
    end.

(** setup_logger of [src/lib/logger.py]. *)
Definition lib_setup_logger (name log_file : string) (debug_mode : bool) (s : log_state) : log_state :=
  let lg := set_level (getLogger s name) (if debug_mode then DEBUG else INFO) in
  match lg_handlers lg with
  | _ :: _ => store_logger s name lg
  | [] => store_logger s name (add_handlers lg [FileH log_file])
  end.


(* ===================================================================== *)
(** * Theorems                                                            *)
(* ===================================================================== *)

Example show_Z_8069 : show_Z 8069%Z = "8069".
Proof. reflexivity. Qed.

Example strip_no : strip "no
" = "no".
Proof. reflexivity. Qed.

Example load_empty_dir :
  load_environment_config ∅ "uat" "./config" =
  ([WarnDefaultMissing "./config/default_config.yaml";
    WarnSpecificMissing "./config/uat.yaml"],
   inr {[ "environment" := YStr "uat" ]}).
Proof. reflexivity. Qed.

Example environment_init_missing_version :
  environment_init "uat" {[ "port" := YInt 8070 ]} =
  inl (ValueError "Configuración incompleta para el entorno uat: falta 'odoo_version'").
Proof. reflexivity. Qed.

(** Both configuration files missing: two warnings, and a mapping that
    holds the [environment] key only. *)
Lemma load_both_missing (fs : fsys) (dir env : string) :
  fs !! default_path dir = None →
  fs !! config_path dir env = None →
  load_environment_config fs env dir =
    ([WarnDefaultMissing (default_path dir); WarnSpecificMissing (config_path dir env)],
     inr {[ "environment" := YStr env ]}).
Proof.
  intros H1 H2. unfold load_environment_config. rewrite H1, H2. simpl.
  by rewrite insert_empty.
Qed.

Lemma inject_defaults_lookup_ne (name k : string) (cfg : config) :
  k ≠ "prefix" → k ≠ "domain" → inject_defaults name cfg !! k = cfg !! k.
Proof.
  intros Hp Hd. unfold inject_defaults.
  destruct (cfg !! "prefix") eqn:Ep;
    [destruct (cfg !! "domain") eqn:Ed | rewrite lookup_insert_ne by done;
                                         destruct (cfg !! "domain") eqn:Ed];
    repeat (rewrite lookup_insert_ne by done); try done.
Qed.

Lemma inject_defaults_prefix (name : string) (cfg : config) :
  is_Some (inject_defaults name cfg !! "prefix").
Proof.
  unfold inject_defaults.
  destruct (cfg !! "prefix") eqn:Ep.
  - destruct (cfg !! "domain"); [by eexists|].
    rewrite lookup_insert_ne by done. by eexists.
  - rewrite lookup_insert_ne by done.
    destruct (cfg !! "domain"); rewrite ?lookup_insert_ne by done;
      rewrite lookup_insert_eq; by eexists.
Qed.

Lemma validate_keys_inl (name : string) (keys : list string) (cfg : config) (e : exc) :
  validate_keys name keys cfg = inl e →
  ∃ k, k ∈ keys ∧ cfg !! k = None ∧ e = ValueError ("Configuración incompleta para el entorno " +:+ name +:+ ": falta '" +:+ k +:+ "'").
Proof.
  induction keys as [|k ks IH]; simpl; [discriminate|].
  destruct (cfg !! k) eqn:Ek.
  - intros H. destruct (IH H) as (k' & Hin & Hk & ->). exists k'. split; [apply elem_of_cons; by right|done].
  - intros [= <-]. exists k. split; [apply elem_of_cons; by left|done].
Qed.

Lemma validate_keys_inr (name : string) (keys : list string) (cfg : config) :
  (∀ k, k ∈ keys → is_Some (cfg !! k)) → validate_keys name keys cfg = inr tt.
Proof.
  induction keys as [|k ks IH]; simpl; [done|].
  intros H. destruct (H k (proj2 (elem_of_cons _ _ _) (or_introl eq_refl))) as [v ->].
  apply IH. intros k' Hk'. apply H. apply elem_of_cons. by right.
Qed.

(** Layering of a default mapping and a per-target mapping. *)
Lemma load_both_maps (fs : fsys) (dir env : string) (dm om : config) :
  fs !! default_path dir = Some (DocMap dm) →
  fs !! config_path dir env = Some (DocMap om) →
  snd (load_environment_config fs env dir) =
    inr (<["environment" := YStr env]> (om ∪ dm)).
Proof.
  intros H1 H2. unfold load_environment_config. rewrite H1, H2. simpl.
  case_decide as Hom; [subst om; by rewrite map_empty_union | done].
Qed.

(** ** C3 (corrected) *)

(** Claim C3, amended: with a default mapping and a per-target mapping,
    every key other than [environment] resolves to the per-target value
    when the per-target mapping has the key, and to the default value
    when only the default has it; [environment] always resolves to the
    target name, whatever the files say. *)
Theorem C3_layering_precedence (fs : fsys) (dir env k : string) (dm om : config) :
  fs !! default_path dir = Some (DocMap dm) →
  fs !! config_path dir env = Some (DocMap om) →
  k ≠ "environment" →
  ∃ m, snd (load_environment_config fs env dir) = inr m ∧
       m !! k = match om !! k with Some v => Some v | None => dm !! k end ∧
       m !! "environment" = Some (YStr env).
Proof.
  intros H1 H2 Hk. rewrite (load_both_maps fs dir env dm om H1 H2).
  eexists. split; [reflexivity|]. split.
  - rewrite lookup_insert_ne by congruence. rewrite lookup_union.
    by destruct (om !! k), (dm !! k).
  - apply lookup_insert_eq.
Qed.

(** The files of the spec's example: default [port: 8069], [uat.yaml]
    with [port: 8070]. *)
Definition example_config_dir : fsys :=
  {[ "./config/default_config.yaml" := DocMap {[ "port" := YInt 8069 ]};
     "./config/uat.yaml" := DocMap {[ "port" := YInt 8070 ]} ]}.

Lemma C3_layering_precedence_witness :
  (example_config_dir !! default_path "./config" = Some (DocMap {[ "port" := YInt 8069 ]}) ∧
   example_config_dir !! config_path "./config" "uat" = Some (DocMap {[ "port" := YInt 8070 ]}) ∧
   "port" ≠ "environment") ∧
  ∃ m, snd (load_environment_config example_config_dir "uat" "./config") = inr m ∧
       m !! "port" = match ({[ "port" := YInt 8070 ]} : config) !! "port" with
                     | Some v => Some v | None => ({[ "port" := YInt 8069 ]} : config) !! "port" end ∧
       m !! "environment" = Some (YStr "uat").
Proof.
  split; [split; [reflexivity | split; [reflexivity | discriminate]]|].
  apply (C3_layering_precedence example_config_dir "./config" "uat" "port");
    [reflexivity | reflexivity | discriminate].
Defined.

(** The spec's example scenario, evaluated: [uat] resolves to 8070 and
    [production] (no [production.yaml]) to 8069. *)
Example C3_example_ports :
  match snd (load_environment_config example_config_dir "uat" "./config") with
  | inr m => m !! "port" | inl _ => None end = Some (YInt 8070) ∧
  match snd (load_environment_config example_config_dir "production" "./config") with
  | inr m => m !! "port" | inl _ => None end = Some (YInt 8069).
Proof. split; reflexivity. Qed.

(** Counterexample to C3 as stated: both mappings hold [environment]
    ([default] and [staging]); resolving [uat] maps it to [uat], not to
    the per-target value. *)
Lemma C3_environment_key_cex :
  ∃ m, snd (load_environment_config
              {[ "./config/default_config.yaml" := DocMap {[ "environment" := YStr "default" ]};
                 "./config/uat.yaml" := DocMap {[ "environment" := YStr "staging" ]} ]}
              "uat" "./config") = inr m ∧
       m !! "environment" ≠ Some (YStr "staging").
Proof.
  eexists. split; [reflexivity|]. vm_compute. congruence.
Qed.

(** ** C4 (corrected) *)

Lemma environment_init_value_error_iff (name : string) (cfg : config) :
  (∃ msg, environment_init name cfg = inl (ValueError msg)) ↔
  cfg !! "odoo_version" = None ∨ cfg !! "port" = None.
Proof.
  unfold environment_init.
  pose proof (inject_defaults_lookup_ne name "odoo_version" cfg) as Hv.
  pose proof (inject_defaults_lookup_ne name "port" cfg) as Hp.
  pose proof (inject_defaults_prefix name cfg) as Hx.
  split.
  + intros [msg Hm].
    destruct (validate_keys name required_keys (inject_defaults name cfg)) eqn:E;
      [|discriminate].
    destruct (validate_keys_inl _ _ _ _ E) as (k & Hin & Hk & _).
    unfold required_keys in Hin. rewrite !elem_of_cons in Hin.
    destruct Hin as [->|[->|[->|Hin]]].
    * left. rewrite <- Hv by done. done.
    * right. rewrite <- Hp by done. done.
    * destruct Hx as [v Hx]. congruence.
    * by apply not_elem_of_nil in Hin.
  + intros Hmiss.
    destruct (validate_keys name required_keys (inject_defaults name cfg)) eqn:E.
    * destruct (validate_keys_inl _ _ _ _ E) as (k & _ & _ & ->). by eexists.
    * exfalso. destruct Hmiss as [Hm|Hm].
      -- assert (Hs : is_Some (inject_defaults name cfg !! "odoo_version")).
         { destruct (inject_defaults name cfg !! "odoo_version") eqn:Eo; [by eexists|].
           assert (validate_keys name required_keys (inject_defaults name cfg) =
                   inl (ValueError ("Configuración incompleta para el entorno " +:+ name
                                    +:+ ": falta 'odoo_version'"))) as E'
             by (simpl; by rewrite Eo).
           congruence. }
         rewrite Hv in Hs by done. rewrite Hm in Hs. by destruct Hs.
      -- assert (Hs : is_Some (inject_defaults name cfg !! "port")).
         { destruct (inject_defaults name cfg !! "port") eqn:Eo; [by eexists|].
           destruct (inject_defaults name cfg !! "odoo_version") eqn:Ev.
           - assert (validate_keys name required_keys (inject_defaults name cfg) =
                     inl (ValueError ("Configuración incompleta para el entorno " +:+ name
                                      +:+ ": falta 'port'"))) as E'
               by (simpl; by rewrite Ev, Eo).
             congruence.
           - simpl in E. rewrite Ev in E. discriminate. }
         rewrite Hp in Hs by done. rewrite Hm in Hs. by destruct Hs.
Qed.

Lemma environment_init_only_value_error (name : string) (cfg : config) (e : exc) :
  environment_init name cfg = inl e → ∃ msg, e = ValueError msg.
Proof.
  unfold environment_init.
  destruct (validate_keys name required_keys (inject_defaults name cfg)) eqn:E;
    [|discriminate].
  intros [= <-]. destruct (validate_keys_inl _ _ _ _ E) as (k & _ & _ & ->). by eexists.
Qed.

(** Claim C4, amended: [install.py]'s load_environment_config raises no
    error when both configuration files are missing (it returns the
    mapping that holds only [environment]); the required-key check lives
    in the Environment constructor of [lib/environment.py]. When it is
    not asked for a remote target, or the remote executor is built
    without error, the constructor raises [ValueError] exactly when
    [odoo_version] or [port] is absent once the [prefix] and [domain]
    defaults are injected ([prefix] is then always present). Any other
    exception it raises comes from building the remote executor
    ([remote=True]). *)
Theorem C4_required_keys_checked_by_environment :
  (∀ (fs : fsys) (dir env : string),
     fs !! default_path dir = None → fs !! config_path dir env = None →
     snd (load_environment_config fs env dir) = inr {[ "environment" := YStr env ]}) ∧
  (∀ (remote_executor : config → py unit) (remote : bool) (name : string) (cfg : config),
     (remote = true → remote_executor cfg = inr tt) →
     ((∃ msg, environment_new remote_executor remote name cfg = inl (ValueError msg)) ↔
      cfg !! "odoo_version" = None ∨ cfg !! "port" = None)) ∧
  (∀ (remote_executor : config → py unit) (remote : bool) (name : string) (cfg : config) (e : exc),
     environment_new remote_executor remote name cfg = inl e →
     (∃ msg, e = ValueError msg) ∨ (remote = true ∧ remote_executor cfg = inl e)).
Proof.
  split; [|split].
  - intros fs dir env H1 H2. by rewrite (load_both_missing fs dir env H1 H2).
  - intros rx remote name cfg Hrx. unfold environment_new.
    destruct remote; [rewrite (Hrx eq_refl)|]; apply environment_init_value_error_iff.
  - intros rx remote name cfg e. unfold environment_new.
    destruct remote; [destruct (rx cfg) as [e'|u] eqn:Erx|].
    + intros [= <-]. right. done.
    + intros H. left. exact (environment_init_only_value_error _ _ _ H).
    + intros H. left. exact (environment_init_only_value_error _ _ _ H).
Qed.

Lemma C4_required_keys_checked_by_environment_witness :
  ((∅ : fsys) !! default_path "./config" = None ∧ (∅ : fsys) !! config_path "./config" "uat" = None) ∧
  snd (load_environment_config ∅ "uat" "./config") = inr {[ "environment" := YStr "uat" ]} ∧
  ((∃ msg, environment_new (λ _, inr tt) false "uat" {[ "port" := YInt 8070 ]} = inl (ValueError msg)) ↔
   ({[ "port" := YInt 8070 ]} : config) !! "odoo_version" = None ∨
   ({[ "port" := YInt 8070 ]} : config) !! "port" = None) ∧
  ((∃ msg, environment_new (λ _, inr tt) true "uat" {[ "port" := YInt 8070 ]} = inl (ValueError msg)) ↔
   ({[ "port" := YInt 8070 ]} : config) !! "odoo_version" = None ∨
   ({[ "port" := YInt 8070 ]} : config) !! "port" = None).
Proof.
  split; [split; reflexivity|]. split; [|split].
  - apply (proj1 C4_required_keys_checked_by_environment); reflexivity.
  - apply (proj1 (proj2 C4_required_keys_checked_by_environment)). discriminate.
  - apply (proj1 (proj2 C4_required_keys_checked_by_environment)). reflexivity.
Defined.

(** Counterexample to C4 as stated: with neither [default_config.yaml]
    nor [uat.yaml] in [./config], load_environment_config returns a
    mapping instead of failing. *)
Lemma C4_no_error_on_missing_files_cex :
  snd (load_environment_config ∅ "uat" "./config") = inr {[ "environment" := YStr "uat" ]}.
Proof. reflexivity. Qed.

(** ** C10 (corrected) *)

(** Claim C10, amended: for every target name and configuration
    directory whose present files hold what the format expects (a
    mapping; the per-target file may also be empty),
    load_environment_config returns normally with [environment] mapped to
    the target name; a missing default or per-target file only logs a
    warning, and with both missing the result holds the [environment] key
    only, no other key being required. A default file that is present but
    holds no mapping (an empty file, a scalar, a sequence, invalid YAML)
    makes it raise, whatever the per-target file holds. *)
Theorem C10_load_total_over_missing_files (fs : fsys) (dir env : string) :
  (wf_config_files fs dir env →
   (∃ m, snd (load_environment_config fs env dir) = inr m ∧
         m !! "environment" = Some (YStr env)) ∧
   (fs !! default_path dir = None →
      WarnDefaultMissing (default_path dir) ∈ fst (load_environment_config fs env dir)) ∧
   (fs !! config_path dir env = None →
      WarnSpecificMissing (config_path dir env) ∈ fst (load_environment_config fs env dir)) ∧
   (fs !! default_path dir = None → fs !! config_path dir env = None →
      snd (load_environment_config fs env dir) = inr {[ "environment" := YStr env ]})) ∧
  (∀ d, fs !! default_path dir = Some d → (∀ m, d ≠ DocMap m) →
     ∃ e, snd (load_environment_config fs env dir) = inl e).
Proof.
  split.
  - intros [Hd Hc]. split; [|split; [|split]].
    + unfold load_environment_config.
      destruct (fs !! default_path dir) as [d|] eqn:E1;
        [destruct (Hd d eq_refl) as [m ->]|];
        (destruct (fs !! config_path dir env) as [d'|] eqn:E2;
           [destruct (Hc d' eq_refl) as [->|[m' ->]]|]);
        simpl; try case_decide; eexists; (split; [reflexivity|]); apply lookup_insert_eq.
    + intros H1. unfold load_environment_config. rewrite H1.
      destruct (fs !! config_path dir env) as [d'|] eqn:E2;
        [destruct (Hc d' eq_refl) as [->|[m' ->]]|]; simpl; try case_decide;
        simpl; apply elem_of_cons; by left.
    + intros H2. unfold load_environment_config. rewrite H2.
      destruct (fs !! default_path dir) as [d|] eqn:E1;
        [destruct (Hd d eq_refl) as [m ->]|]; simpl; set_solver.
    + intros H1 H2. by rewrite (load_both_missing fs dir env H1 H2).
  - intros d Hd Hnm. unfold load_environment_config. rewrite Hd.
    destruct d as [|m|v|]; [| by destruct (Hnm m) | |]; cbn;
      [eauto| |eauto];
      (destruct (fs !! config_path dir env) as [[|m'|v'|]|]; cbn;
         [eauto|case_decide; eauto|destruct (yval_truthy v'); eauto|eauto|eauto]).
Qed.

Lemma C10_load_total_over_missing_files_witness :
  (wf_config_files example_config_dir "./config" "training" ∧
   ∃ m, snd (load_environment_config example_config_dir "training" "./config") = inr m ∧
        m !! "environment" = Some (YStr "training")) ∧
  ∃ e, snd (load_environment_config {[ default_path "./config" := DocNone ]} "uat" "./config") = inl e.
Proof.
  assert (Hwf : wf_config_files example_config_dir "./config" "training").
  { split.
    - intros d Hd. vm_compute in Hd. injection Hd as <-. by eexists.
    - intros d Hd. vm_compute in Hd. discriminate. }
  split; [split; [exact Hwf|]|].
  - exact (proj1 (proj1 (C10_load_total_over_missing_files example_config_dir "./config" "training") Hwf)).
  - apply (proj2 (C10_load_total_over_missing_files {[ default_path "./config" := DocNone ]} "./config" "uat") DocNone);
      [reflexivity|discriminate].
Defined.

(** Claim C10, counterexample: with an empty [default_config.yaml] (YAML
    null) and no [uat.yaml], load_environment_config does not return: the
    item assignment on [None] raises [TypeError]. *)
Lemma C10_null_default_raises_cex :
  snd (load_environment_config {[ "./config/default_config.yaml" := DocNone ]} "uat" "./config") = inl TypeError.
Proof. reflexivity. Qed.

(** ** Check-then-create in [install_odoo.py] *)

Lemma strip_no_nl : strip ("no" +:+ nl) = "no".
Proof. reflexivity. Qed.

Lemma strip_empty : strip "" = "".
Proof. reflexivity. Qed.

Lemma ensure_user_odoo_absent (w : world) (prefix : string) :
  mem (prefix +:+ "odoo") (h_users (w_host w)) = false →
  ensure_user_odoo prefix w =
    (inr tt, {| w_host := add_user (prefix +:+ "odoo") (w_host w);
                w_log := (w_log w ++ [IdUOrNo (prefix +:+ "odoo");
                                      Sudo (Useradd ("/opt/" +:+ prefix +:+ "odoo") (prefix +:+ "odoo"))])%list |}).
Proof.
  intros H. destruct w as [h l].
  unfold ensure_user_odoo, run_command_odoo, exec_cmd, mbind, M_bind, mret, M_ret.
  cbn -[mem strip] in *. rewrite H, strip_no_nl. cbn -[mem strip]. rewrite H.
  cbn -[mem]. by rewrite <- app_assoc.
Qed.

Lemma ensure_user_odoo_present (w : world) (prefix : string) :
  mem (prefix +:+ "odoo") (h_users (w_host w)) = true →
  ensure_user_odoo prefix w =
    (inr tt, {| w_host := w_host w; w_log := (w_log w ++ [IdUOrNo (prefix +:+ "odoo")])%list |}).
Proof.
  intros H. destruct w as [h l].
  unfold ensure_user_odoo, run_command_odoo, exec_cmd, mbind, M_bind, mret, M_ret.
  cbn -[mem strip] in *. rewrite H, strip_empty. done.
Qed.

Lemma mem_app_r (x : string) (l : list string) : mem x (l ++ [x])%list = true.
Proof.
  unfold mem. apply existsb_exists. exists x. split; [apply in_or_app; right; by left|].
  apply String.eqb_refl.
Qed.

Lemma creations_app (l1 l2 : list cmd) : creations (l1 ++ l2)%list = (creations l1 + creations l2)%nat.
Proof.
  unfold creations. induction l1 as [|c l1 IH]; [done|].
  cbn. destruct (is_create c); cbn; lia.
Qed.

(** Running the user step of [install_odoo.py] twice on an unchanged host
    creates the user at most once. *)
Lemma ensure_user_odoo_twice (w w1 w2 : world) (r1 r2 : py unit) (prefix : string) :
  ensure_user_odoo prefix w = (r1, w1) →
  ensure_user_odoo prefix w1 = (r2, w2) →
  r1 = inr tt ∧ r2 = inr tt ∧
  mem (prefix +:+ "odoo") (h_users (w_host w2)) = true ∧
  (creations (w_log w2) ≤ creations (w_log w) + 1)%nat.
Proof.
  intros H1 H2.
  destruct (mem (prefix +:+ "odoo") (h_users (w_host w))) eqn:E.
  - rewrite (ensure_user_odoo_present w prefix E) in H1. injection H1 as <- <-.
    erewrite ensure_user_odoo_present in H2; [|exact E]. injection H2 as <- <-. cbn [w_log w_host].
    rewrite !creations_app. cbn. repeat split; [done|lia].
  - rewrite (ensure_user_odoo_absent w prefix E) in H1. injection H1 as <- <-.
    erewrite ensure_user_odoo_present in H2; [|apply mem_app_r]. injection H2 as <- <-. cbn [w_log w_host].
    rewrite !creations_app. cbn -[mem]. repeat split; [apply mem_app_r|lia].
Qed.

(** ** C1 (code_bug) *)

(** Claim C1, the [install.py] system-user step, evaluated: the existence
    check [id -u u > /dev/null 2>&1 || echo 'no'] always exits 0, and the
    step tests run_command's success flag instead of the printed [no];
    so when the user is absent the create command ([useradd]) is never
    run and the host keeps no such user. *)
Theorem C1_install_py_user_never_created (w : world) (env_name : string) (cfg : config) :
  mem (install_user env_name cfg) (h_users (w_host w)) = false →
  ensure_user_install env_name cfg w =
    (inr tt, {| w_host := w_host w;
                w_log := (w_log w ++ [IdUOrNo (install_user env_name cfg)])%list |}).
Proof.
  intros H. destruct w as [h l].
  unfold ensure_user_install, run_command_install, exec_cmd, mbind, M_bind, mret, M_ret.
  cbn -[mem install_user install_home] in *. reflexivity.
Qed.

Lemma C1_install_py_user_never_created_witness :
  mem (install_user "production" ∅) (h_users empty_host) = false ∧
  ensure_user_install "production" ∅ {| w_host := empty_host; w_log := [] |} =
    (inr tt, {| w_host := empty_host; w_log := [IdUOrNo "production_odoo"] |}).
Proof.
  split; [reflexivity|].
  exact (C1_install_py_user_never_created {| w_host := empty_host; w_log := [] |} "production" ∅ eq_refl).
Defined.

(** ** C6 (corrected) *)

(** Claim C6, amended: [install_odoo.py]'s run_command raises
    CalledProcessError (carrying the status, the command, the captured
    stdout and stderr) when [check] holds and the status is non-zero, and
    otherwise returns the stripped stdout only. [install.py]'s
    run_command never raises on a status: it returns (True, stdout) on
    status 0, (False, stderr) on a non-zero status without [check], and
    (False, the exception message, which names only the command and the
    status) on a non-zero status with [check]. *)
Theorem C6_run_command_modes (cmdtext : string) (check : bool) (p : completed) :
  (check = true → returncode p ≠ 0%Z →
     run_command_odoo_result cmdtext check p =
       inl (CalledProcessError (returncode p) cmdtext (stdout p) (stderr p))) ∧
  (check = false ∨ returncode p = 0%Z →
     run_command_odoo_result cmdtext check p = inr (strip (stdout p))) ∧
  (returncode p = 0%Z → run_command_install_result cmdtext check p = (true, stdout p)) ∧
  (returncode p ≠ 0%Z → check = false →
     run_command_install_result cmdtext check p = (false, stderr p)) ∧
  (returncode p ≠ 0%Z → check = true →
     run_command_install_result cmdtext check p = (false, cpe_str cmdtext (returncode p))).
Proof.
  unfold run_command_odoo_result, run_command_install_result.
  repeat split.
  - intros -> Hrc. apply Z.eqb_neq in Hrc. by rewrite Hrc.
  - intros [->| Hrc]; [done|]. apply Z.eqb_eq in Hrc. rewrite Hrc. by destruct check.
  - intros Hrc. apply Z.eqb_eq in Hrc. rewrite Hrc. by destruct check.
  - intros Hrc ->. apply Z.eqb_neq in Hrc. by rewrite Hrc.
  - intros Hrc ->. apply Z.eqb_neq in Hrc. by rewrite Hrc.
Qed.

Lemma C6_run_command_modes_witness :
  (true = true ∧ returncode {| returncode := 1; stdout := "out"; stderr := "E: boom" |} ≠ 0%Z) ∧
  run_command_odoo_result "sudo apt update" true {| returncode := 1; stdout := "out"; stderr := "E: boom" |} =
    inl (CalledProcessError 1 "sudo apt update" "out" "E: boom").
Proof.
  split; [split; [reflexivity | discriminate]|].
  apply (C6_run_command_modes "sudo apt update" true
           {| returncode := 1; stdout := "out"; stderr := "E: boom" |}); [reflexivity | discriminate].
Defined.

(** Counterexample to C6 as stated: [install.py]'s run_command with
    [check] on a command that exits 1 raises nothing and returns neither
    the stdout nor the stderr it captured. *)
Lemma C6_strict_install_py_returns_cex :
  run_command_install_result "sudo apt update" true
    {| returncode := 1; stdout := "partial"; stderr := "E: boom" |} =
  (false, "Command 'sudo apt update' returned non-zero exit status 1.").
Proof. reflexivity. Qed.

(** ** C8 (confirmed) *)






(** A host where [prod_odoo.service] is stopped but everything else of
    the production target is in place. *)
Definition stopped_prod_host : host :=
  {| h_users := ["prod_odoo"]; h_roles := ["prod_odoo"]; h_dbs := ["prod_odoo"];
     h_units := [("prod_odoo.service", UInactive)];
     h_listen := ["tcp LISTEN 0 128 0.0.0.0:8069 0.0.0.0:*"];
     h_paths := ["/etc/prod_odoo/odoo.conf"; "/etc/nginx/sites-enabled/prod_odoo"] |}.



(** The same host evaluated through [verify_odoo.py] main: every other
    probe passes, the row still fails. *)
Example verify_main_stopped :
  map snd (verify_main stopped_prod_host ["production"]) =
  [{| service_ok := false; port_ok := true; user_ok := true; db_ok := true;
      config_ok := true; nginx_ok := true; status_ok := false |}].
Proof. vm_compute. reflexivity. Qed.

(** ** C7 (confirmed) *)

Lemma disjoint_names_sound (l1 l2 : list string) :
  disjoint_names l1 l2 = true → ∀ x, In x l1 → ¬ In x l2.
Proof.
  unfold disjoint_names, mem. rewrite forallb_forall. intros H x H1 H2.
  specialize (H x H1). apply negb_true_iff in H.
  assert (existsb (String.eqb x) l2 = true) as E.
  { apply existsb_exists. exists x. split; [done|apply String.eqb_refl]. }
  congruence.
Qed.

Lemma disjoint_ports_sound (l1 l2 : list Z) :
  disjoint_ports l1 l2 = true → ∀ x, In x l1 → ¬ In x l2.
Proof.
  unfold disjoint_ports. rewrite forallb_forall. intros H x H1 H2.
  specialize (H x H1). apply negb_true_iff in H.
  assert (existsb (Z.eqb x) l2 = true) as E.
  { apply existsb_exists. exists x. split; [done|apply Z.eqb_refl]. }
  congruence.
Qed.

Lemma env_lookup_in (n : string) (c : env_config) :
  env_lookup n = Some c → In (n, c) ENVIRONMENTS.
Proof.
  unfold env_lookup. destruct (find _ _) as [[n' c']|] eqn:E; [|discriminate].
  intros [= <-]. pose proof (find_some _ _ E) as [Hin Heq].
  cbn in Heq. apply String.eqb_eq in Heq. by subst n'.
Qed.

(** Claim C7: for two distinct environments of ENVIRONMENTS, the names
    setup_environment derives (system user, home, directories, database
    user and name, config file, log file, service file and unit, nginx
    files, upstreams, logs, module directory, server name) are pairwise
    disjoint, and so are their ports, the longpolling port (port + 1000)
    included. *)
Theorem C7_namespace_isolation (n1 n2 : string) (c1 c2 : env_config) :
  env_lookup n1 = Some c1 → env_lookup n2 = Some c2 → n1 ≠ n2 →
  (∀ x, In x (resource_names (derive n1 c1)) → ¬ In x (resource_names (derive n2 c2))) ∧
  (∀ p, In p (resource_ports (derive n1 c1)) → ¬ In p (resource_ports (derive n2 c2))).
Proof.
  intros H1 H2 Hne.
  apply env_lookup_in in H1, H2.
  unfold ENVIRONMENTS in H1, H2; cbn [In] in H1, H2.
  destruct H1 as [H1|[H1|[H1|[H1|[]]]]]; destruct H2 as [H2|[H2|[H2|[H2|[]]]]];
    injection H1 as <- <-; injection H2 as <- <-;
    try congruence;
    (split; [apply disjoint_names_sound | apply disjoint_ports_sound]; vm_compute; reflexivity).
Qed.

Lemma C7_namespace_isolation_witness :
  (env_lookup "testing" = Some {| e_prefix := "test_"; e_port := 8071; e_domain := "testing.example.com"; e_memory_limit := "2G" |} ∧
   env_lookup "training" = Some {| e_prefix := "train_"; e_port := 8072; e_domain := "training.example.com"; e_memory_limit := "2G" |} ∧
   "testing" ≠ "training") ∧
  (∀ p, In p (resource_ports (derive "testing" {| e_prefix := "test_"; e_port := 8071; e_domain := "testing.example.com"; e_memory_limit := "2G" |})) →
        ¬ In p (resource_ports (derive "training" {| e_prefix := "train_"; e_port := 8072; e_domain := "training.example.com"; e_memory_limit := "2G" |}))).
Proof.
  split; [split; [reflexivity | split; [reflexivity | discriminate]]|].
  apply (C7_namespace_isolation "testing" "training"); [reflexivity | reflexivity | discriminate].
Defined.

(* --------------------------------------------------------------------- *)
(** *** Artifact writes (steps 6 to 8 of [install_odoo.py])               *)
(* --------------------------------------------------------------------- *)

Lemma afs_exists_false (a : afs) (p : string) :
  a_content a !! p = None → afs_exists a p = false.
Proof. intros H. unfold afs_exists. rewrite H. apply bool_decide_eq_false. intros [? ?]; discriminate. Qed.

Lemma afs_exists_true (a : afs) (p : string) (t : string) :
  a_content a !! p = Some t → afs_exists a p = true.
Proof. intros H. unfold afs_exists. rewrite H. apply bool_decide_eq_true. eauto. Qed.


Lemma config_path_ne (prefix : string) : "/etc/" +:+ prefix +:+ "odoo/odoo.conf" ≠ "temp_config.conf".
Proof. cbn. discriminate. Qed.









(* --------------------------------------------------------------------- *)
(** *** The loops of the two [main] functions                            *)
(* --------------------------------------------------------------------- *)

Lemma dict_set_notin (k : string) (v : bool) (d : list (string * bool)) :
  k ∉ map fst d → dict_set k v d = (d ++ [(k, v)])%list.
Proof.
  induction d as [|[k' v'] d IH]; cbn; intros Hn; [done|].
  apply not_elem_of_cons in Hn as [Hne Hn].
  destruct (String.eqb_spec k k'); [congruence|]. rewrite IH; done.
Qed.

Lemma setup_environment_install_false {H : Type} (body : string → config → H → py unit * H)
    (t : string) (c : config) (h0 : H) :
  fst (setup_environment_install body t c h0) = false ↔ ∃ e, fst (body t c h0) = inl e.
Proof.
  unfold setup_environment_install.
  destruct (body t c h0) as [[e|u] h1]; cbn; split.
  - eauto.
  - done.
  - discriminate.
  - intros [e He]; discriminate.
Qed.

Lemma install_loop_ok {H : Type} (fs : fsys) (dir : string) (body : string → config → H → py unit * H)
    (targets : list string) (results : list (string * bool)) (h : H) :
  forallb (load_ok fs dir) targets = true →
  NoDup (map fst results ++ targets)%list →
  let '(r, att, out, _) := install_loop fs dir body targets results h in
  r = inr (results ++ map (att_result fs dir body) att)%list ∧ map fst att = targets ∧
  out = map InstBanner targets.
Proof.
  revert results h. induction targets as [|t ts IH]; intros results h Hl Hnd.
  - cbn. rewrite app_nil_r. auto.
  - cbn in Hl. apply andb_prop in Hl as [Ht Hl].
    unfold load_ok in Ht.
    cbn [install_loop]. destruct (load_environment_config fs t dir) as [lg [e|cfg]] eqn:E; cbn in Ht |- *; [discriminate|].
    destruct (setup_environment_install body t cfg h) as [ok h1] eqn:Es.
    assert (Hn : t ∉ map fst results).
    { intros Hin. apply NoDup_app in Hnd as (_ & Hd & _). apply (Hd t Hin). left. }
    rewrite (dict_set_notin t ok results Hn).
    specialize (IH (results ++ [(t, ok)])%list h1 Hl).
    destruct (install_loop fs dir body ts (results ++ [(t, ok)])%list h1) as [[[r att] out] h2].
    destruct IH as (Hr & Ha & Ho).
    { rewrite map_app, <- app_assoc. exact Hnd. }
    split; [|split; cbn; congruence].
    assert (Hat : att_result fs dir body (t, h) = (t, ok)).
    { unfold att_result, loaded_config. cbn [fst snd]. rewrite E. cbn [snd]. rewrite Es. reflexivity. }
    rewrite Hr, <- app_assoc. cbn [map app]. rewrite Hat. reflexivity.
Qed.

Lemma odoo_loop_shape {H : Type} (setup : string → H → py unit * H) (targets : list string) (h : H) :
  let '(att, r, _) := odoo_loop setup targets h in
  ∃ pre rest, targets = (pre ++ rest)%list ∧
    ((r = inr tt ∧ rest = [] ∧ att = map (λ t, (t, true)) pre) ∨
     (∃ e t post, r = inl e ∧ rest = t :: post ∧ att = (map (λ t, (t, true)) pre ++ [(t, false)])%list)).
Proof.
  revert h. induction targets as [|t ts IH]; intros h.
  - cbn. exists [], []. auto.
  - cbn. destruct (setup t h) as [[e|u] h1].
    + exists [], (t :: ts). split; [done|]. right. eauto 6.
    + specialize (IH h1). destruct (odoo_loop setup ts h1) as [[att r] h2].
      destruct IH as (pre & rest & -> & [(-> & -> & ->)|(e & t' & post & -> & -> & ->)]).
      * exists (t :: pre), []. split; [done|]. left. destruct u. auto.
      * exists (t :: pre), (t' :: post). split; [done|]. right. eauto 6.
Qed.

Lemma main_install_ok {H : Type} (fs : fsys) (dir : string) (body : string → config → H → py unit * H)
    (targets : list string) (h : H) :
  forallb (load_ok fs dir) targets = true → NoDup targets →
  let '(code, att, out, _) := main_install true fs dir body targets h in
  map fst att = targets ∧
  (code = 0%Z ↔ Forall (λ p, snd (att_result fs dir body p) = true) att) ∧
  (code = 0%Z ∨ code = 1%Z) ∧
  ∃ fin, out = (map InstBanner targets ++ InstSummaryHeader ::
                map (λ p, InstSummary (fst p) (snd p)) (map (att_result fs dir body) att) ++ [fin])%list.
Proof.
  intros Hl Hnd. unfold main_install. cbn [negb].
  pose proof (install_loop_ok fs dir body targets [] h Hl Hnd) as Hi.
  destruct (install_loop fs dir body targets [] h) as [[[r att] out] h1].
  destruct Hi as (-> & Ha & ->). cbn [app].
  destruct (forallb snd (map (att_result fs dir body) att)) eqn:F.
  - split; [done|]. split; [|split; [auto|eauto]].
    split; [intros _|done].
    apply List.Forall_forall. intros p Hp. rewrite forallb_forall in F.
    apply F, in_map_iff. eauto.
  - split; [done|]. split; [|split; [auto|eauto]].
    split; [discriminate|]. intros Hall. exfalso.
    assert (forallb snd (map (att_result fs dir body) att) = true) as T; [|congruence].
    rewrite forallb_forall. intros x Hx. apply in_map_iff in Hx as (p & <- & Hp).
    rewrite List.Forall_forall in Hall. apply Hall, Hp.
Qed.

Lemma main_odoo_shape {H : Type} (deps reload : H → py unit * H) (setup : string → H → py unit * H)
    (targets : list string) (h : H) :
  let '(code, att, out, _) := main_odoo deps reload setup targets h in
  ∃ pre rest, targets = (pre ++ rest)%list ∧
    ((code = 0%Z ∧ rest = [] ∧ att = map (λ t, (t, true)) pre ∧ out = OdooDone :: map OdooAccess targets) ∨
     (code = 1%Z ∧ (∃ e, out = [OdooError e]) ∧
      (att = [] ∨ ∃ t post, rest = t :: post ∧ att = (map (λ t, (t, true)) pre ++ [(t, false)])%list))).
Proof.
  unfold main_odoo.
  destruct (deps h) as [[e|u] h1].
  { exists [], targets. split; [done|]. right. eauto. }
  destruct (reload h1) as [[e|u'] h2].
  { exists [], targets. split; [done|]. right. eauto. }
  pose proof (odoo_loop_shape setup targets h2) as Hs.
  destruct (odoo_loop setup targets h2) as [[att [e|[]]] h3].
  - destruct Hs as (pre & rest & Ht & [(? & _)|(e' & t & post & [= <-] & -> & ->)]); [discriminate|].
    exists pre, (t :: post). split; [done|]. right. eauto 10.
  - destruct Hs as (pre & rest & Ht & [(_ & -> & ->)|(e' & _ & _ & ? & _)]); [|discriminate].
    exists pre, []. split; [done|]. left. auto.
Qed.

(** Claim C2 (amended). install.py isolates failures: when every selected
    target's configuration loads (load_environment_config raises for no
    target) and no target is selected twice, main calls setup_environment
    for every selected target, in order, whatever the others do, and
    prints one banner and one summary line per target; a target is
    recorded as failed exactly when its pipeline raised (the exception is
    caught in setup_environment). install_odoo.py does not: its main runs
    the targets inside one [try], so the targets it attempts are a prefix
    of the selection; if a target raises, it is the last one attempted,
    the targets after it never run, and the exit code is 1. *)
Theorem C2_failure_isolation {H : Type} (fs : fsys) (dir : string)
    (body : string → config → H → py unit * H)
    (deps reload : H → py unit * H) (setup : string → H → py unit * H)
    (targets : list string) (h : H) :
  forallb (load_ok fs dir) targets = true → NoDup targets →
  (let '(_, att, out, _) := main_install true fs dir body targets h in
   map fst att = targets ∧
   ∃ fin, out = (map InstBanner targets ++ InstSummaryHeader ::
                 map (λ p, InstSummary (fst p) (snd p)) (map (att_result fs dir body) att) ++ [fin])%list) ∧
  (∀ t c h0, fst (setup_environment_install body t c h0) = false ↔ ∃ e, fst (body t c h0) = inl e) ∧
  (let '(code, att, _, _) := main_odoo deps reload setup targets h in
   ∃ pre rest, targets = (pre ++ rest)%list ∧
     ((code = 0%Z ∧ rest = [] ∧ att = map (λ t, (t, true)) pre) ∨
      (code = 1%Z ∧ (att = [] ∨ ∃ t post, rest = t :: post ∧
                                 att = (map (λ t, (t, true)) pre ++ [(t, false)])%list)))).
Proof.
  intros Hl Hnd. split; [|split].
  - pose proof (main_install_ok fs dir body targets h Hl Hnd) as Hm.
    destruct (main_install true fs dir body targets h) as [[[code att] out] h1].
    destruct Hm as (Ha & _ & _ & Ho). auto.
  - apply setup_environment_install_false.
  - pose proof (main_odoo_shape deps reload setup targets h) as Hs.
    destruct (main_odoo deps reload setup targets h) as [[[code att] out] h1].
    destruct Hs as (pre & rest & Ht & [(? & ? & ? & _)|(? & _ & ?)]); exists pre, rest; auto.
Qed.

Lemma C2_failure_isolation_witness :
  forallb (load_ok ∅ "./config") all_targets = true ∧ NoDup all_targets ∧
  (let '(_, att, _, _) := main_install true ∅ "./config" (body_fails_at "uat") all_targets 0%nat in
   map fst att = all_targets).
Proof.
  assert (Hl : forallb (load_ok ∅ "./config") all_targets = true) by reflexivity.
  assert (Hnd : NoDup all_targets) by (unfold all_targets; repeat constructor; set_solver).
  split; [exact Hl|]. split; [exact Hnd|].
  pose proof (C2_failure_isolation ∅ "./config" (body_fails_at "uat") step_ok step_ok
                (setup_fails_at "uat") all_targets 0%nat Hl Hnd) as (Hi & _ & _).
  destruct (main_install true ∅ "./config" (body_fails_at "uat") all_targets 0%nat) as [[[code att] out] h1].
  destruct Hi as (Ha & _). exact Ha.
Defined.

(** Claim C2, counterexample. In install_odoo.py, when uat's pipeline
    raises, testing and training are never attempted. In install.py, a
    default file that is not valid YAML makes load_environment_config
    raise outside any [try]: no target is attempted at all. *)
Lemma C2_install_odoo_stops_cex :
  main_odoo step_ok step_ok (setup_fails_at "uat") all_targets 0%nat
    = (1%Z, [("production", true); ("uat", false)], [OdooError OSError], 2%nat) ∧
  main_install true (<[default_path "./config" := DocInvalid]> ∅) "./config"
      (body_fails_at "uat") all_targets 0%nat = (1%Z, [], [], 0%nat).
Proof. split; reflexivity. Qed.

(** Claim C9 (amended). install.py: when check_system_dependencies fails,
    main returns 1 and prints no summary; otherwise, when every target's
    configuration loads and no target is selected twice, main returns 0 or
    1, returns 0 exactly when every target's pipeline succeeded, and prints
    a summary line for every target in both cases. install_odoo.py: main
    returns 0 or 1, returns 0 exactly when every selected target completed
    (and then logs the access URLs of all of them), and on any exception
    logs a single error line, with no per-target pass/fail summary. *)
Theorem C9_exit_code {H : Type} (fs : fsys) (dir : string)
    (body : string → config → H → py unit * H)
    (deps reload : H → py unit * H) (setup : string → H → py unit * H)
    (targets : list string) (h : H) :
  main_install false fs dir body targets h = (1%Z, [], [], h) ∧
  (forallb (load_ok fs dir) targets = true → NoDup targets →
   let '(code, att, out, _) := main_install true fs dir body targets h in
   (code = 0%Z ∨ code = 1%Z) ∧
   (code = 0%Z ↔ Forall (λ p, snd (att_result fs dir body p) = true) att) ∧
   map fst att = targets ∧
   ∃ fin, out = (map InstBanner targets ++ InstSummaryHeader ::
                 map (λ p, InstSummary (fst p) (snd p)) (map (att_result fs dir body) att) ++ [fin])%list) ∧
  (let '(code, att, out, _) := main_odoo deps reload setup targets h in
   (code = 0%Z ∨ code = 1%Z) ∧
   (code = 0%Z ↔ map fst att = targets ∧ Forall (λ p, snd p = true) att ∧
                 out = OdooDone :: map OdooAccess targets) ∧
   (code = 1%Z → ∃ e, out = [OdooError e])).
Proof.
  split; [reflexivity|]. split.
  - intros Hl Hnd.
    pose proof (main_install_ok fs dir body targets h Hl Hnd) as Hm.
    destruct (main_install true fs dir body targets h) as [[[code att] out] h1].
    destruct Hm as (Ha & Hc & Hb & Ho). auto.
  - pose proof (main_odoo_shape deps reload setup targets h) as Hs.
    destruct (main_odoo deps reload setup targets h) as [[[code att] out] h1].
    destruct Hs as (pre & rest & Ht & [(-> & -> & -> & ->)|(-> & [e ->] & _)]).
    + rewrite app_nil_r in Ht. subst targets.
      split; [auto|]. split; [|discriminate].
      split; [|done]. intros _. split; [|split; [|done]].
      * rewrite map_map. cbn. apply map_id.
      * apply List.Forall_forall. intros p Hp. apply in_map_iff in Hp as (t & <- & _). reflexivity.
    + split; [auto|]. split; [|eauto].
      split; [discriminate|]. intros (_ & _ & ?). discriminate.
Qed.

Lemma C9_exit_code_witness :
  let '(code, _, _, _) := main_install true ∅ "./config" (body_fails_at "uat") all_targets 0%nat in
  code = 1%Z.
Proof.
  assert (Hl : forallb (load_ok ∅ "./config") all_targets = true) by reflexivity.
  assert (Hnd : NoDup all_targets) by (unfold all_targets; repeat constructor; set_solver).
  pose proof (C9_exit_code ∅ "./config" (body_fails_at "uat") step_ok step_ok
                (setup_fails_at "uat") all_targets 0%nat) as (_ & Hi & _).
  specialize (Hi Hl Hnd).
  destruct (main_install true ∅ "./config" (body_fails_at "uat") all_targets 0%nat) as [[[code att] out] h1] eqn:E.
  cbv beta iota in Hi |- *.
  destruct Hi as (Hc & _). destruct Hc as [Hc|Hc]; [|exact Hc].
  subst code. vm_compute in E. discriminate E.
Defined.

(** Claim C9, counterexample. install_odoo.py's output when uat raises is
    one error line, with no pass/fail line per target; install.py prints
    no summary when the dependency check fails. *)
Lemma C9_no_summary_cex :
  (let '(code, _, out, _) := main_odoo step_ok step_ok (setup_fails_at "uat") all_targets 0%nat in
   code = 1%Z ∧ out = [OdooError OSError]) ∧
  main_install false ∅ "./config" (body_fails_at "uat") all_targets 0%nat = (1%Z, [], [], 0%nat).
Proof. vm_compute. repeat split. Qed.

(* --------------------------------------------------------------------- *)
(** *** Step 5 of [install_odoo.py]: role and database                   *)
(* --------------------------------------------------------------------- *)

Lemma ensure_pg_role_absent (w : world) (env_name prefix : string) :
  mem (prefix +:+ "odoo") (h_roles (w_host w)) = false →
  ensure_pg_role_odoo env_name prefix w =
    (inr tt, {| w_host := add_role (prefix +:+ "odoo") (w_host w);
                w_log := (w_log w ++ [PgRoleOrNo (prefix +:+ "odoo"); Createuser (prefix +:+ "odoo");
                                      AlterUserPassword (prefix +:+ "odoo") ("odoo_" +:+ env_name +:+ "_pass")])%list |}).
Proof.
  intros H. destruct w as [h l].
  unfold ensure_pg_role_odoo, run_command_odoo, exec_cmd, mbind, M_bind, mret, M_ret.
  cbn -[mem strip] in *. rewrite H, strip_no_nl. cbn -[mem strip]. rewrite H.
  cbn -[mem strip]. rewrite mem_app_r. cbn -[mem]. by rewrite <- !app_assoc.
Qed.

Lemma ensure_pg_role_present (w : world) (env_name prefix : string) :
  mem (prefix +:+ "odoo") (h_roles (w_host w)) = true →
  ensure_pg_role_odoo env_name prefix w =
    (inr tt, {| w_host := w_host w; w_log := (w_log w ++ [PgRoleOrNo (prefix +:+ "odoo")])%list |}).
Proof.
  intros H. destruct w as [h l].
  unfold ensure_pg_role_odoo, run_command_odoo, exec_cmd, mbind, M_bind, mret, M_ret.
  cbn -[mem strip] in *. rewrite H, strip_empty. done.
Qed.

Lemma str_app_assoc (a b c : string) : a +:+ (b +:+ c) = (a +:+ b) +:+ c.
Proof. induction a as [|x a IH]; [reflexivity|exact (f_equal (String x) IH)]. Qed.

Lemma substring_app_front (x y : string) :
  substring 0 (String.length x) (x +:+ y) = x.
Proof. induction x as [|c x IH]; simpl; [by destruct y|by rewrite IH]. Qed.

Lemma substring_app_mid (a x y : string) :
  substring (String.length a) (String.length x) (a +:+ x +:+ y) = x.
Proof.
  induction a as [|c a IH]; [exact (substring_app_front x y)|exact IH].
Qed.

Lemma str_length_app (a b : string) :
  String.length (a +:+ b) = (String.length a + String.length b)%nat.
Proof. induction a as [|c a IH]; simpl; [reflexivity|by rewrite IH]. Qed.

Lemma str_get_app_length (a b : string) :
  String.get (String.length a) (a +:+ b) = String.get 0 b.
Proof. induction a as [|c a IH]; [reflexivity|exact IH]. Qed.

(** A database name is listed by [grep -w] on its own padded line. *)
Lemma grep_w_padded (d : string) : grep_w d (" " +:+ d +:+ " ") = true.
Proof.
  unfold grep_w. apply existsb_exists. exists 1%nat. split.
  - apply in_seq. change (" " +:+ d +:+ " ") with (String " " (d +:+ " ")).
    cbn [String.length]. rewrite str_length_app. cbn [String.length]. lia.
  - change (" " +:+ d +:+ " ") with (String " " (d +:+ " ")).
    cbn [substring]. rewrite substring_app_front, String.eqb_refl.
    cbn [andb non_word String.get]. cbn [is_word_char negb].
    change (1 + String.length d)%nat with (S (String.length d)). cbv iota.
    rewrite str_get_app_length. reflexivity.
Qed.

Lemma db_listed_mem (h : host) (d : string) : mem d (h_dbs h) = true → db_listed h d = true.
Proof.
  unfold mem, db_listed. rewrite !existsb_exists. intros (n & Hin & E).
  apply String.eqb_eq in E. subst n. exists d. split; [exact Hin|apply grep_w_padded].
Qed.

Lemma db_listed_add_db (h : host) (d : string) : db_listed (add_db d h) d = true.
Proof. apply db_listed_mem. apply mem_app_r. Qed.

Lemma ensure_db_present (w : world) (prefix : string) :
  db_listed (w_host w) (prefix +:+ "odoo") = true →
  ensure_db_odoo prefix w =
    (inr tt, {| w_host := w_host w; w_log := (w_log w ++ [PgDbOrNo (prefix +:+ "odoo")])%list |}).
Proof.
  intros H. destruct w as [h l].
  unfold ensure_db_odoo, run_command_odoo, exec_cmd, mbind, M_bind, mret, M_ret.
  cbn -[db_listed strip] in *. rewrite H, strip_empty. done.
Qed.

Lemma ensure_db_absent (w : world) (prefix : string) :
  db_listed (w_host w) (prefix +:+ "odoo") = false →
  mem (prefix +:+ "odoo") (h_dbs (w_host w)) = false →
  mem (prefix +:+ "odoo") (h_roles (w_host w)) = true →
  ensure_db_odoo prefix w =
    (inr tt, {| w_host := add_db (prefix +:+ "odoo") (w_host w);
                w_log := (w_log w ++ [PgDbOrNo (prefix +:+ "odoo");
                                      Createdb (prefix +:+ "odoo") (prefix +:+ "odoo")])%list |}).
Proof.
  intros Hl H Hr. destruct w as [h l].
  unfold ensure_db_odoo, run_command_odoo, exec_cmd, mbind, M_bind, mret, M_ret.
  cbn -[db_listed mem strip] in *. rewrite Hl, strip_no_nl. cbn -[db_listed mem strip]. rewrite H, Hr.
  cbn -[mem]. by rewrite <- app_assoc.
Qed.

(** A database step that completes with the role present leaves the role
    present and the database listed. *)
Lemma ensure_db_odoo_done (w w1 : world) (prefix : string) :
  mem (prefix +:+ "odoo") (h_roles (w_host w)) = true →
  ensure_db_odoo prefix w = (inr tt, w1) →
  mem (prefix +:+ "odoo") (h_roles (w_host w1)) = true ∧ db_listed (w_host w1) (prefix +:+ "odoo") = true.
Proof.
  intros Hr H. destruct (db_listed (w_host w) (prefix +:+ "odoo")) eqn:El.
  - rewrite (ensure_db_present w prefix El) in H. injection H as <-. split; assumption.
  - destruct (mem (prefix +:+ "odoo") (h_dbs (w_host w))) eqn:Em.
    + rewrite (db_listed_mem _ _ Em) in El. discriminate.
    + rewrite (ensure_db_absent w prefix El Em Hr) in H. injection H as <-.
      split; [exact Hr|apply db_listed_add_db].
Qed.

(** Extra X1: step 5 of install_odoo.py (check-then-create the PostgreSQL
    role, then check-then-create the database) is idempotent: after a run
    that completes, the role exists and the database is listed by the
    [grep -qw] check, and a second run completes, changes nothing on the
    host and only repeats the two checks. *)
Theorem setup_database_odoo_idempotent (w w1 : world) (env_name prefix : string) :
  let r := prefix +:+ "odoo" in
  setup_database_odoo env_name prefix w = (inr tt, w1) →
  mem r (h_roles (w_host w1)) = true ∧ db_listed (w_host w1) r = true ∧
  setup_database_odoo env_name prefix w1 =
    (inr tt, {| w_host := w_host w1; w_log := (w_log w1 ++ [PgRoleOrNo r; PgDbOrNo r])%list |}).
Proof.
  intros r H.
  assert (D : mem r (h_roles (w_host w1)) = true ∧ db_listed (w_host w1) r = true).
  { unfold setup_database_odoo, mbind at 1, M_bind at 1 in H.
    destruct (mem r (h_roles (w_host w))) eqn:Er.
    - rewrite (ensure_pg_role_present w env_name prefix Er) in H.
      eapply ensure_db_odoo_done; [|exact H]. exact Er.
    - rewrite (ensure_pg_role_absent w env_name prefix Er) in H.
      eapply ensure_db_odoo_done; [|exact H]. apply mem_app_r. }
  destruct D as [Hr Hd]. split; [exact Hr|split; [exact Hd|]].
  unfold setup_database_odoo. unfold mbind at 1, M_bind at 1.
  rewrite (ensure_pg_role_present w1 env_name prefix Hr).
  cbv beta iota. rewrite ensure_db_present by exact Hd. cbn. by rewrite <- app_assoc.
Qed.

Lemma setup_database_odoo_idempotent_witness :
  let w := {| w_host := empty_host; w_log := [] |} in
  setup_database_odoo "production" "prod_" w =
    (inr tt, snd (setup_database_odoo "production" "prod_" w)) ∧
  setup_database_odoo "production" "prod_" (snd (setup_database_odoo "production" "prod_" w)) =
    (inr tt, {| w_host := w_host (snd (setup_database_odoo "production" "prod_" w));
                w_log := (w_log (snd (setup_database_odoo "production" "prod_" w))
                          ++ [PgRoleOrNo "prod_odoo"; PgDbOrNo "prod_odoo"])%list |}).
Proof.
  intros w. assert (E : setup_database_odoo "production" "prod_" w =
                        (inr tt, snd (setup_database_odoo "production" "prod_" w))) by (vm_compute; reflexivity).
  split; [exact E|].
  exact (proj2 (proj2 (setup_database_odoo_idempotent w _ "production" "prod_" E))).
Defined.

(* --------------------------------------------------------------------- *)
(** *** Re-running the config step of [install_odoo.py]                  *)
(* --------------------------------------------------------------------- *)

(** Extra X3: the config step of install_odoo.py does not recover from an
    interrupted run. If a run stops right after the [mv] (before chown
    and chmod), the final path exists, so the next run skips the step and
    the config file keeps the invoking user as owner and the creation mode
    [cmode] of the temporary file (what the invoker's umask leaves, 644
    under umask 022) instead of <prefix>odoo:<prefix>odoo and 640. This
    assumes no temp_config.conf is left in the working directory. *)
Theorem config_step_interrupted_not_repaired (invoker cmode : string) (a : afs) (env_name prefix : string) (port : Z) :
  let cfg := "/etc/" +:+ prefix +:+ "odoo/odoo.conf" in
  a_content a !! cfg = None → a_content a !! "temp_config.conf" = None →
  let a1 := exec_fops invoker cmode a (take 2 (config_step a env_name prefix port)) in
  config_step a1 env_name prefix port = [] ∧
  a_content a1 !! cfg = Some (config_content env_name prefix port) ∧
  a_owner a1 !! cfg = Some invoker ∧ a_mode a1 !! cfg = Some cmode.
Proof.
  intros cfg H Ht a1.
  pose proof (config_path_ne prefix) as Hne. fold cfg in Hne.
  assert (E : a_content a1 !! cfg = Some (config_content env_name prefix port) ∧
              a_owner a1 !! cfg = Some invoker ∧ a_mode a1 !! cfg = Some cmode).
  { unfold a1, config_step. fold cfg. rewrite (afs_exists_false a cfg H).
    cbn. rewrite Ht. cbn. simplify_map_eq. auto. }
  destruct E as (Ec & Eo & Em). split; [|auto].
  unfold config_step. fold cfg. rewrite (afs_exists_true a1 cfg _ Ec). reflexivity.
Qed.

Lemma config_step_interrupted_not_repaired_witness :
  let a1 := exec_fops "root" "644" empty_afs (take 2 (config_step empty_afs "production" "prod_" 8069)) in
  config_step a1 "production" "prod_" 8069 = [] ∧ a_owner a1 !! "/etc/prod_odoo/odoo.conf" = Some "root".
Proof.
  destruct (config_step_interrupted_not_repaired "root" "644" empty_afs "production" "prod_" 8069 eq_refl eq_refl)
    as (E & _ & Eo & _).
  split; [exact E|exact Eo].
Defined.

(* --------------------------------------------------------------------- *)
(** *** The [results] dict of [install.py] main                           *)
(* --------------------------------------------------------------------- *)

Lemma dict_set_keys (k : string) (v : bool) (d : list (string * bool)) :
  map fst (dict_set k v d) = if bool_decide (k ∈ map fst d) then map fst d else (map fst d ++ [k])%list.
Proof.
  induction d as [|[k' v'] d IH]; cbn; [reflexivity|].
  destruct (String.eqb_spec k k') as [->|Hne].
  - rewrite bool_decide_eq_true_2; [reflexivity|left].
  - cbn. rewrite IH. destruct (bool_decide (k ∈ map fst d)) eqn:B.
    + apply bool_decide_eq_true in B. rewrite bool_decide_eq_true_2; [reflexivity|by right].
    + apply bool_decide_eq_false in B. rewrite bool_decide_eq_false_2; [reflexivity|].
      rewrite elem_of_cons. intros [?|?]; contradiction.
Qed.

Lemma dict_set_get (k k' : string) (v : bool) (d : list (string * bool)) :
  dict_get k' (dict_set k v d) = if String.eqb k' k then Some v else dict_get k' d.
Proof.
  unfold dict_get. induction d as [|[k0 v0] d IH]; cbn.
  - by destruct (String.eqb k' k) eqn:E; rewrite String.eqb_sym, E.
  - destruct (String.eqb_spec k k0) as [->|Hne]; cbn.
    + rewrite String.eqb_sym. destruct (String.eqb k' k0); reflexivity.
    + destruct (String.eqb_spec k0 k') as [->|Hne'].
      * rewrite (proj2 (String.eqb_neq k' k)) by congruence. reflexivity.
      * exact IH.
Qed.

(** [results[env] = success] on the dict model: reading a key just set
    gives the new value, other keys keep theirs, the key list keeps its
    order and grows only by a new key at the end, and it stays free of
    duplicates. *)
Lemma dict_set_spec (k : string) (v : bool) (d : list (string * bool)) :
  NoDup (map fst d) →
  dict_get k (dict_set k v d) = Some v ∧
  (∀ k', k' ≠ k → dict_get k' (dict_set k v d) = dict_get k' d) ∧
  map fst (dict_set k v d) = (if bool_decide (k ∈ map fst d) then map fst d else map fst d ++ [k])%list ∧
  NoDup (map fst (dict_set k v d)).
Proof.
  intros Hnd. split; [|split; [|split]].
  - rewrite dict_set_get, String.eqb_refl. reflexivity.
  - intros k' Hne. rewrite dict_set_get. apply String.eqb_neq in Hne. by rewrite Hne.
  - apply dict_set_keys.
  - rewrite dict_set_keys. case_bool_decide; [exact Hnd|].
    apply NoDup_app. split; [exact Hnd|]. split; [|apply NoDup_singleton].
    intros x Hx Hy. assert (x = k) as -> by set_solver. contradiction.
Qed.

Lemma install_loop_keys {H : Type} (fs : fsys) (dir : string) (body : string → config → H → py unit * H)
    (targets : list string) (results : list (string * bool)) (h : H) r att out h' :
  NoDup (map fst results) →
  install_loop fs dir body targets results h = (inr r, att, out, h') →
  NoDup (map fst r) ∧ ∀ t, t ∈ map fst r ↔ t ∈ map fst results ∨ t ∈ targets.
Proof.
  revert results h att out h'. induction targets as [|t ts IH]; intros results h att out h' Hnd E.
  - cbn in E. injection E as -> _ _ _. split; [exact Hnd|]. set_solver.
  - cbn [install_loop] in E.
    destruct (snd (load_environment_config fs t dir)) as [e|cfg]; [discriminate|].
    destruct (setup_environment_install body t cfg h) as [ok h1].
    destruct (install_loop fs dir body ts (dict_set t ok results) h1) as [[[r0 att0] out0] h2] eqn:E2.
    injection E as -> _ _ ->.
    destruct (dict_set_spec t ok results Hnd) as (_ & _ & Hk & Hnd').
    destruct (IH _ _ _ _ _ Hnd' E2) as [Hr Hin]. split; [exact Hr|].
    intros x. rewrite Hin, Hk. case_bool_decide; set_solver.
Qed.

(** Extra X5: install.py main never prints two summary lines for one
    target: when the loop finishes, the results dict has each selected
    target exactly once, even when a target was selected more than once
    (the later run's outcome replaces the earlier one). *)
Theorem install_summary_one_line_per_target {H : Type} (fs : fsys) (dir : string)
    (body : string → config → H → py unit * H) (targets : list string) (h : H) r att out h' :
  install_loop fs dir body targets [] h = (inr r, att, out, h') →
  NoDup (map fst r) ∧ ∀ t, t ∈ map fst r ↔ t ∈ targets.
Proof.
  intros E. destruct (install_loop_keys fs dir body targets [] h r att out h' (NoDup_nil_2) E) as [Hn Hi].
  split; [exact Hn|]. intros t. rewrite Hi. set_solver.
Qed.

Lemma install_summary_one_line_per_target_witness :
  ∃ r att out h', install_loop ∅ "./config" (body_fails_at "uat") ["uat"; "production"; "uat"] [] 0%nat
                    = (inr r, att, out, h') ∧ NoDup (map fst r).
Proof.
  eexists _, _, _, _. split; [reflexivity|].
  eapply (install_summary_one_line_per_target ∅ "./config" (body_fails_at "uat")
            ["uat"; "production"; "uat"] 0%nat). reflexivity.
Defined.

(* --------------------------------------------------------------------- *)
(** *** More of [install.py] load_environment_config                      *)
(* --------------------------------------------------------------------- *)

(** Extra X6: an empty default file (YAML [null]) makes install.py's
    load_environment_config raise, whatever the per-target file holds or
    whether it exists: [config] is [None], and both [config.update] and
    [config['environment'] = ...] fail on it. *)
Theorem load_null_default_raises (fs : fsys) (dir env : string) :
  fs !! default_path dir = Some DocNone →
  ∃ e, snd (load_environment_config fs env dir) = inl e.
Proof.
  intros H. unfold load_environment_config. rewrite H. cbn.
  destruct (fs !! config_path dir env) as [d|]; cbn; [|eauto].
  destruct d as [| m | v |]; cbn; [eauto| |  |eauto].
  - case_decide; cbn; eauto.
  - destruct (yval_truthy v); cbn; eauto.
Qed.

Lemma load_null_default_raises_witness :
  ∃ e, snd (load_environment_config (<[default_path "./config" := DocNone]> ∅) "uat" "./config") = inl e.
Proof. apply load_null_default_raises. reflexivity. Defined.

(** Extra X7: in install.py's load_environment_config, a per-target file
    that is empty (YAML [null]) or an empty mapping gives the same
    configuration (or the same error) as no per-target file at all. *)
Theorem load_falsy_env_file_ignored (fs : fsys) (dir env : string) (d : yaml_doc) :
  config_path dir env ≠ default_path dir →
  fs !! config_path dir env = Some d → d = DocNone ∨ d = DocMap ∅ →
  snd (load_environment_config fs env dir) =
  snd (load_environment_config (delete (config_path dir env) fs) env dir).
Proof.
  intros Hne Hd Hf. unfold load_environment_config.
  rewrite lookup_delete_ne by congruence. rewrite lookup_delete_eq, Hd.
  destruct (fs !! default_path dir) as [[| m | v |]|]; cbn; try reflexivity;
    destruct Hf as [->| ->]; cbn; try reflexivity;
    rewrite decide_True by reflexivity; reflexivity.
Qed.

Lemma load_falsy_env_file_ignored_witness :
  snd (load_environment_config (<["./config/uat.yaml" := DocNone]> ∅) "uat" "./config") =
  snd (load_environment_config (delete (config_path "./config" "uat") (<["./config/uat.yaml" := DocNone]> ∅)) "uat" "./config").
Proof.
  apply (load_falsy_env_file_ignored _ "./config" "uat" DocNone).
  - cbn. discriminate.
  - reflexivity.
  - left; reflexivity.
Defined.

(* --------------------------------------------------------------------- *)
(** *** [lib/environment.py]: Environment.__init__ and default names      *)
(* --------------------------------------------------------------------- *)

Lemma inject_defaults_props (name : string) (cfg : config) :
  cfg ⊆ inject_defaults name cfg ∧
  inject_defaults name cfg !! "prefix" =
    Some (match cfg !! "prefix" with Some v => v | None => YStr (get_default_prefix name) end) ∧
  inject_defaults name cfg !! "domain" =
    Some (match cfg !! "domain" with Some v => v | None => YStr (name +:+ ".example.com") end).
Proof.
  unfold inject_defaults.
  destruct (cfg !! "prefix") as [p|] eqn:Ep; destruct (cfg !! "domain") as [d|] eqn:Ed;
    repeat first [ rewrite Ep | rewrite Ed | rewrite lookup_insert_eq
                 | rewrite lookup_insert_ne by done ].
  - auto.
  - split; [apply insert_subseteq; exact Ed|]. auto.
  - split; [apply insert_subseteq; exact Ep|]. auto.
  - split; [|auto].
    etrans; [apply (insert_subseteq _ "prefix" (YStr (get_default_prefix name)) Ep)|].
    apply insert_subseteq. rewrite lookup_insert_ne by done. exact Ed.
Qed.

(** Extra X8: when the Environment constructor of lib/environment.py
    succeeds, the config it keeps extends the given one: no key is removed
    or overwritten, only 'prefix' (the table's default prefix, or
    <name>_) and 'domain' (<name>.example.com) are added, each only when
    absent. *)
Theorem environment_init_extends (name : string) (cfg cfg' : config) :
  environment_init name cfg = inr cfg' →
  cfg ⊆ cfg' ∧
  (∀ k, k ≠ "prefix" → k ≠ "domain" → cfg' !! k = cfg !! k) ∧
  cfg' !! "prefix" = Some (match cfg !! "prefix" with Some v => v | None => YStr (get_default_prefix name) end) ∧
  cfg' !! "domain" = Some (match cfg !! "domain" with Some v => v | None => YStr (name +:+ ".example.com") end).
Proof.
  unfold environment_init.
  destruct (validate_keys name required_keys (inject_defaults name cfg)); [discriminate|].
  intros [= <-]. destruct (inject_defaults_props name cfg) as (Hs & Hp & Hd).
  split; [exact Hs|]. split; [|auto].
  intros k Hkp Hkd. apply inject_defaults_lookup_ne; assumption.
Qed.

Lemma environment_init_extends_witness :
  let cfg : config := <["odoo_version" := YStr "16.0"]> (<["port" := YInt 8070]> ∅) in
  ∃ cfg', environment_init "uat" cfg = inr cfg' ∧
    cfg' !! "domain" = Some (YStr "uat.example.com").
Proof.
  intros cfg. eexists. split; [reflexivity|].
  apply (environment_init_extends "uat" cfg). reflexivity.
Defined.

(** Extra X9: for a target config without a 'prefix' key, install.py
    derives the prefix <env>_ (so the user production_odoo), while the
    Environment class of lib/environment.py injects the prefix of its own
    table (prod_, uat_, test_, train_, else <env>_): the two agree exactly
    for names other than production, testing and training. *)
Theorem default_prefixes_agree_iff (env_name : string) (cfg : config) :
  cfg !! "prefix" = None →
  inject_defaults env_name cfg !! "prefix" = Some (YStr (get_default_prefix env_name)) ∧
  (install_prefix env_name cfg = get_default_prefix env_name ↔
   env_name ≠ "production" ∧ env_name ≠ "testing" ∧ env_name ≠ "training").
Proof.
  intros Hn. split.
  - destruct (inject_defaults_props env_name cfg) as (_ & Hp & _). rewrite Hp, Hn. reflexivity.
  - unfold install_prefix, config_get_str, get_default_prefix. rewrite Hn.
    destruct (String.eqb_spec env_name "production") as [->|Hp]; [split; [discriminate|tauto]|].
    destruct (String.eqb_spec env_name "uat") as [->|Hu]; [split; [auto|reflexivity]|].
    destruct (String.eqb_spec env_name "testing") as [->|Ht]; [split; [discriminate|tauto]|].
    destruct (String.eqb_spec env_name "training") as [->|Htr]; [split; [discriminate|tauto]|].
    split; auto.
Qed.

Lemma default_prefixes_agree_iff_witness :
  let cfg : config := {[ "environment" := YStr "production"; "port" := YInt 8069 ]} in
  inject_defaults "production" cfg !! "prefix" = Some (YStr "prod_") ∧
  install_prefix "production" cfg ≠ get_default_prefix "production".
Proof.
  intros cfg.
  destruct (default_prefixes_agree_iff "production" cfg ltac:(vm_compute; reflexivity)) as [Hi Hiff].
  split; [exact Hi|]. intros E. apply Hiff in E. destruct E as [E _]. exact (E eq_refl).
Defined.

(** *** The embedded [install.py] of setup_project.py *)

Lemma dict_assign_keys {V : Type} (k : string) (v : V) (d : list (string * V)) (x : string) :
  x ∈ map fst (dict_assign k v d) ↔ x = k ∨ x ∈ map fst d.
Proof.
  induction d as [|[k' v'] d IH]; simpl.
  - set_solver.
  - destruct (String.eqb_spec k k') as [->|Hne]; simpl; rewrite !elem_of_cons; [tauto|].
    rewrite IH. tauto.
Qed.

Lemma dict_assign_nodup {V : Type} (k : string) (v : V) (d : list (string * V)) :
  NoDup (map fst d) → NoDup (map fst (dict_assign k v d)).
Proof.
  induction d as [|[k' v'] d IH]; simpl; intros Hnd.
  - constructor; [set_solver|constructor].
  - destruct (String.eqb_spec k k') as [->|Hne]; simpl; [exact Hnd|].
    apply NoDup_cons in Hnd as [Hn Hnd]. apply NoDup_cons. split; [|auto].
    rewrite dict_assign_keys. intros [->|]; auto.
Qed.

Lemma dict_assign_in {V : Type} (k : string) (v : V) (d : list (string * V)) (x : string) (y : V) :
  (x, y) ∈ dict_assign k v d → (x = k ∧ y = v) ∨ (x, y) ∈ d.
Proof.
  induction d as [|[k' v'] d IH]; simpl.
  - intros Hin. apply elem_of_cons in Hin as [[= -> ->]|Hin]; [auto|set_solver].
  - destruct (String.eqb_spec k k') as [->|Hne]; rewrite !elem_of_cons.
    + intros [[= -> ->]|]; auto.
    + intros [[= -> ->]|Hin]; auto. destruct (IH Hin); auto.
Qed.

Lemma load_env_maps (fs : fsys) (config_dir env : string) (m me : config) :
  fs !! default_path config_dir = Some (DocMap m) →
  fs !! config_path config_dir env = Some (DocMap me) →
  snd (load_environment_config fs env config_dir) = inr (<["environment" := YStr env]> (me ∪ m)).
Proof.
  intros Hd He. unfold load_environment_config. cbv zeta. rewrite Hd, He.
  cbn -[union insert]. destruct (decide (me = ∅)) as [->|]; [|reflexivity].
  rewrite (left_id_L ∅ union m). reflexivity.
Qed.

Lemma lc_loop_maps (fs : fsys) (config_dir : string) (m : config) (envs : list string) :
  fs !! default_path config_dir = Some (DocMap m) →
  (∀ e, e ∈ envs → ∃ me, fs !! config_path config_dir e = Some (DocMap me)) →
  ∀ acc, NoDup (map fst acc) →
  (∀ x y, (x, y) ∈ acc → snd (load_environment_config fs x config_dir) = inr y) →
  ∃ cs, lc_loop fs config_dir (DocMap m) envs acc = LcOk cs ∧ NoDup (map fst cs) ∧
    (∀ x, x ∈ map fst cs ↔ x ∈ map fst acc ∨ x ∈ envs) ∧
    (∀ x y, (x, y) ∈ cs → snd (load_environment_config fs x config_dir) = inr y).
Proof.
  intros Hd. induction envs as [|e envs IH]; intros Henvs acc Hnd Hacc; simpl.
  - exists acc. split; [reflexivity|]. split; [exact Hnd|]. split; [set_solver|exact Hacc].
  - destruct (Henvs e) as [me Hme]; [set_solver|]. rewrite Hme. cbn.
    destruct (IH ltac:(set_solver) (dict_assign e (<["environment" := YStr e]> (me ∪ m)) acc))
      as (cs & Hcs & Hndcs & Hkeys & Hin).
    + apply dict_assign_nodup. exact Hnd.
    + intros x y Hxy. destruct (dict_assign_in _ _ _ _ _ Hxy) as [[-> ->]|]; auto.
      apply (load_env_maps fs config_dir e m me); assumption.
    + exists cs. split; [exact Hcs|]. split; [exact Hndcs|]. split; [|exact Hin].
      intros x. rewrite Hkeys, dict_assign_keys, elem_of_cons. tauto.
Qed.

Lemma lc_loop_files (fs : fsys) (config_dir : string) (d : yaml_doc) (envs : list string) :
  ∀ acc cs, lc_loop fs config_dir d envs acc = LcOk cs →
  ∀ e, e ∈ envs → is_Some (fs !! config_path config_dir e).
Proof.
  induction envs as [|e0 envs IH]; simpl; intros acc cs Hok e He; [set_solver|].
  destruct (fs !! config_path config_dir e0) as [d0|] eqn:E0; [|discriminate].
  apply elem_of_cons in He as [->|He]; [rewrite E0; eauto|].
  destruct d0; try discriminate;
  repeat match type of Hok with
  | context [match ?x with _ => _ end] => destruct x; try discriminate
  end; eapply IH; eauto.
Qed.

Lemma load_configuration_exit (b : bool) (fs : fsys) (config_dir : string) (sel : list string) (c : Z) :
  load_configuration b fs config_dir sel = LcExit c → c = 1%Z.
Proof.
  unfold load_configuration.
  assert (∀ d envs acc, lc_loop fs config_dir d envs acc ≠ LcExit c) as Hloop.
  { intros d envs. induction envs as [|e envs IH]; intros acc; simpl; [discriminate|].
    destruct (fs !! config_path config_dir e) as [d0|]; [|discriminate].
    destruct d0; try discriminate;
    repeat match goal with
    | |- context [match ?x with _ => _ end] => destruct x; try discriminate
    end; apply IH. }
  destruct b; simpl; [|congruence].
  destruct (fs !! default_path config_dir) as [[]|]; try congruence; intros E; exfalso; eapply Hloop, E.
Qed.

(** Extra X10: in the install.py that setup_project.py writes, a selected
    target without its own YAML file makes load_configuration reach
    [logger.warning], a name the module does not define; main catches the
    NameError and exits with status 1. So main never installs anything in
    that case: it ends with exit status 1, the results dict stays empty
    and the state is the one left by validate_requirements. *)
Theorem setup_main_missing_target_file {H : Type}
    (validate : H → bool * H) (banner : list (string * config) → H → py unit * H)
    (summary : list (string * config) → list (string * bool) → H → py unit * H)
    (inst : string → config → H → py bool * H) (slog : string → H → py unit * H)
    (remote : bool) (rx : config → H → py unit * H)
    (dir_exists : bool) (fs : fsys) (config_dir : string) (sel : list string) (e : string)
    (h : H) (r : ms_result) (results : list (string * bool)) (h' : H) :
  e ∈ (match sel with [] => all_targets | _ => sel end) →
  fs !! config_path config_dir e = None →
  main_setup validate banner summary inst slog remote rx
    (λ _, load_configuration dir_exists fs config_dir sel) h = (r, results, h') →
  r = MsExit 1 ∧ results = [] ∧ h' = snd (validate h).
Proof.
  intros He Hnone. unfold main_setup.
  destruct (validate h) as [ok h1]. simpl.
  destruct ok; simpl; [|intros [= <- <- <-]; auto].
  destruct (load_configuration dir_exists fs config_dir sel) as [c|ex|nm|cs] eqn:Hl.
  - intros [= <- <- <-]. apply load_configuration_exit in Hl as ->. auto.
  - intros [= <- <- <-]. auto.
  - intros [= <- <- <-]. auto.
  - exfalso. unfold load_configuration in Hl.
    destruct dir_exists; simpl in Hl; [|discriminate].
    destruct (fs !! default_path config_dir) as [[]|]; try discriminate;
      apply (lc_loop_files _ _ _ _ _ _ Hl e) in He; rewrite Hnone in He; by destruct He.
Qed.

Lemma setup_main_missing_target_file_witness :
  (MsExit 1, [], 0%nat) =
    main_setup (λ n, (true, n)) (λ _ n, (inr tt, n)) (λ _ _ n, (inr tt, n)) (λ _ _ n, (inr true, S n))
      (λ _ n, (inr tt, n)) false (λ _ n, (inr tt, n))
      (λ _, load_configuration true {[ default_path "./config" := DocMap ∅ ]} "./config" [])
      0%nat ∧
  (MsExit 1 = MsExit 1 ∧ @nil (string * bool) = [] ∧ 0%nat = 0%nat).
Proof.
  split; [vm_compute; reflexivity|].
  apply (setup_main_missing_target_file (λ n, (true, n)) (λ _ n, (inr tt, n)) (λ _ _ n, (inr tt, n))
           (λ _ _ n, (inr true, S n)) (λ _ n, (inr tt, n)) false (λ _ n, (inr tt, n))
           true {[ default_path "./config" := DocMap ∅ ]} "./config" []
           "production" 0%nat (MsExit 1) [] 0%nat).
  - simpl. set_solver.
  - vm_compute. reflexivity.
  - vm_compute. reflexivity.
Defined.

(** Extra X11: when the default file and the file of every selected target
    hold YAML mappings, the loader of setup_project.py's install.py
    succeeds and agrees with load_environment_config of install.py: it
    returns one config per selected target (duplicates merged), each equal
    to what install.py's loader returns for that target. *)
Theorem load_configuration_agrees_on_maps (fs : fsys) (config_dir : string) (sel : list string)
    (m : config) :
  fs !! default_path config_dir = Some (DocMap m) →
  (∀ e, e ∈ (match sel with [] => all_targets | _ => sel end) →
        ∃ me, fs !! config_path config_dir e = Some (DocMap me)) →
  ∃ cs, load_configuration true fs config_dir sel = LcOk cs ∧ NoDup (map fst cs) ∧
    (∀ e, e ∈ map fst cs ↔ e ∈ (match sel with [] => all_targets | _ => sel end)) ∧
    (∀ e c, (e, c) ∈ cs → snd (load_environment_config fs e config_dir) = inr c).
Proof.
  intros Hd Henvs. unfold load_configuration. simpl. rewrite Hd.
  destruct (lc_loop_maps fs config_dir m _ Hd Henvs [] (NoDup_nil_2) ltac:(set_solver))
    as (cs & Hcs & Hnd & Hkeys & Hin).
  exists cs. split; [exact Hcs|]. split; [exact Hnd|]. split; [|exact Hin].
  intros e. rewrite Hkeys. set_solver.
Qed.

Lemma load_configuration_agrees_on_maps_witness :
  let fs : fsys := {[ default_path "./config" := DocMap {[ "port" := YInt 8069 ]};
                      config_path "./config" "uat" := DocMap {[ "port" := YInt 8070 ]} ]} in
  ∃ cs, load_configuration true fs "./config" ["uat"] = LcOk cs ∧ NoDup (map fst cs) ∧
    (∀ e, e ∈ map fst cs ↔ e ∈ ["uat"]) ∧
    (∀ e c, (e, c) ∈ cs → snd (load_environment_config fs e "./config") = inr c).
Proof.
  intros fs. apply (load_configuration_agrees_on_maps fs "./config" ["uat"] {[ "port" := YInt 8069 ]}).
  - vm_compute. reflexivity.
  - intros e He. assert (e = "uat") as -> by set_solver.
    eexists. vm_compute. reflexivity.
Defined.

(** The loop of setup_project.py's loader goes through targets whose files
    hold mappings. *)
Lemma lc_loop_app_maps (fs : fsys) (config_dir : string) (m : config) (pre l : list string) :
  (∀ p, p ∈ pre → ∃ mp, fs !! config_path config_dir p = Some (DocMap mp)) →
  ∀ configs, ∃ configs',
    lc_loop fs config_dir (DocMap m) (pre ++ l) configs = lc_loop fs config_dir (DocMap m) l configs'.
Proof.
  induction pre as [|p pre IH]; intros Hpre configs; [by exists configs|].
  destruct (Hpre p ltac:(left)) as [mp Hp].
  simpl. rewrite Hp. simpl.
  apply IH. intros q Hq. apply Hpre. right. exact Hq.
Qed.

(** Extra X12: an empty per-target YAML file (loaded as None) is accepted by
    install.py's loader, which keeps the default config, but makes the
    loader of setup_project.py's install.py raise TypeError, since it calls
    [config.update(None)] without checking the loaded value. This holds
    when the default file holds a mapping and every target selected before
    this one has a file holding a mapping. *)
Theorem load_configuration_empty_target_file (fs : fsys) (config_dir env : string)
    (pre rest : list string) (m : config) :
  fs !! default_path config_dir = Some (DocMap m) →
  (∀ p, p ∈ pre → ∃ mp, fs !! config_path config_dir p = Some (DocMap mp)) →
  fs !! config_path config_dir env = Some DocNone →
  load_configuration true fs config_dir (pre ++ env :: rest) = LcRaise TypeError ∧
  snd (load_environment_config fs env config_dir) = inr (<["environment" := YStr env]> m).
Proof.
  intros Hd Hpre He. split.
  - unfold load_configuration.
    replace (match (pre ++ env :: rest)%list with [] => all_targets | _ => (pre ++ env :: rest)%list end)
      with (pre ++ env :: rest)%list by (destruct pre; reflexivity).
    simpl. rewrite Hd.
    destruct (lc_loop_app_maps fs config_dir m pre (env :: rest) Hpre []) as [configs' ->].
    simpl. rewrite He. reflexivity.
  - unfold load_environment_config. cbv zeta. rewrite Hd, He. reflexivity.
Qed.

Lemma load_configuration_empty_target_file_witness :
  let fs : fsys := {[ default_path "./config" := DocMap {[ "port" := YInt 8069 ]};
                      config_path "./config" "production" := DocMap {[ "port" := YInt 8069 ]};
                      config_path "./config" "uat" := DocNone ]} in
  load_configuration true fs "./config" ["production"; "uat"; "testing"] = LcRaise TypeError ∧
  snd (load_environment_config fs "uat" "./config") =
    inr (<["environment" := YStr "uat"]> {[ "port" := YInt 8069 ]}).
Proof.
  intros fs.
  apply (load_configuration_empty_target_file fs "./config" "uat" ["production"] ["testing"]
           {[ "port" := YInt 8069 ]}).
  - vm_compute. reflexivity.
  - intros p Hp. assert (p = "production") as -> by set_solver. eexists. vm_compute. reflexivity.
  - vm_compute. reflexivity.
Defined.

Lemma validate_keys_value_error (name : string) (keys : list string) (cfg : config) (e : exc) :
  validate_keys name keys cfg = inl e → ∃ msg, e = ValueError msg.
Proof.
  induction keys as [|k ks IH]; simpl; [discriminate|].
  destruct (cfg !! k); [exact IH|]. intros [= <-]. eauto.
Qed.

Lemma environment_init_value_error (name : string) (cfg : config) (e : exc) :
  environment_init name cfg = inl e → ∃ msg, e = ValueError msg.
Proof.
  unfold environment_init.
  destruct (validate_keys name required_keys (inject_defaults name cfg)) eqn:E; [|discriminate].
  intros [= <-]. eapply validate_keys_value_error, E.
Qed.

Lemma environment_init_missing (name : string) (cfg : config) :
  cfg !! "odoo_version" = None ∨ cfg !! "port" = None →
  ∃ e, environment_init name cfg = inl e.
Proof.
  intros Hm. unfold environment_init, required_keys. simpl.
  rewrite !inject_defaults_lookup_ne by done.
  destruct Hm as [Hv|Hp]; [rewrite Hv; eauto|].
  destruct (cfg !! "odoo_version"); [|eauto]. rewrite Hp. eauto.
Qed.

Lemma setup_environments_fail {H : Type} (slog : string → H → py unit * H) (remote : bool)
    (rx : config → H → py unit * H) (configs : list (string * config)) (n : string) (c : config)
    (h : H) :
  (n, c) ∈ configs → c !! "odoo_version" = None ∨ c !! "port" = None →
  ∃ e, fst (setup_environments slog remote rx configs h) = inl e ∧
    ((∀ m s, fst (slog m s) = inr tt) → (remote = true → ∀ cf s, fst (rx cf s) = inr tt) →
     ∃ msg, e = ValueError msg).
Proof.
  intros Hin Hm. revert h. induction configs as [|[n0 c0] rest IH]; intros h; [set_solver|].
  simpl. destruct (slog n0 h) as [[e0|[]] h1] eqn:Es.
  - exists e0. split; [reflexivity|]. intros Hs _. specialize (Hs n0 h). rewrite Es in Hs. discriminate.
  - destruct (if remote then rx c0 h1 else (inr tt, h1)) as [[e0|[]] h2] eqn:Er.
    + exists e0. split; [reflexivity|]. intros _ Hr. destruct remote.
      * specialize (Hr eq_refl c0 h1). rewrite Er in Hr. discriminate.
      * discriminate.
    + destruct (environment_init n0 c0) as [e0|c0'] eqn:E0.
      * exists e0. split; [reflexivity|]. intros _ _. exact (environment_init_value_error _ _ _ E0).
      * apply elem_of_cons in Hin as [[= <- <-]|Hin].
        -- destruct (environment_init_missing n c Hm) as [e He]. congruence.
        -- destruct (IH Hin h2) as (e & He & Hv).
           destruct (setup_environments slog remote rx rest h2) as [[e'|envs] h3];
             simpl in He; [|discriminate].
           injection He as ->. exists e. split; [reflexivity|exact Hv].
Qed.

Lemma setup_environments_names {H : Type} (slog : string → H → py unit * H) (remote : bool)
    (rx : config → H → py unit * H) (configs envs : list (string * config)) (h : H) :
  fst (setup_environments slog remote rx configs h) = inr envs → map fst envs = map fst configs.
Proof.
  revert envs h. induction configs as [|[n c] rest IH]; simpl; intros envs h.
  - intros [= <-]. reflexivity.
  - destruct (slog n h) as [[|[]] h1]; [discriminate|].
    destruct (if remote then rx c h1 else (inr tt, h1)) as [[|[]] h2]; [discriminate|].
    destruct (environment_init n c); [discriminate|].
    destruct (setup_environments slog remote rx rest h2) as [[|envs'] h3] eqn:E; [discriminate|].
    simpl. intros [= <-]. simpl. f_equal. apply (IH _ h2). rewrite E. reflexivity.
Qed.

Lemma setup_install_loop_keys {H : Type} (inst : string → config → H → py bool * H)
    (envs : list (string * config)) :
  NoDup (map fst envs) →
  ∀ results h, (∀ k, k ∈ map fst envs → k ∉ map fst results) →
  map fst (fst (setup_install_loop inst envs results h)) = (map fst results ++ map fst envs)%list.
Proof.
  induction envs as [|[n c] rest IH]; simpl; intros Hnd results h Hdis.
  - rewrite app_nil_r. reflexivity.
  - apply NoDup_cons in Hnd as [Hn Hnd].
    destruct (inst n c h) as [r h1]. cbv beta iota.
    rewrite IH; [|exact Hnd|].
    + rewrite dict_set_notin by (apply Hdis; left). rewrite map_app, <- app_assoc. reflexivity.
    + intros k Hk. rewrite dict_set_notin by (apply Hdis; left). rewrite map_app. simpl.
      rewrite elem_of_app. intros [Hr|Hs].
      * apply (Hdis k); [right; exact Hk|exact Hr].
      * assert (k = n) as -> by set_solver. done.
Qed.

(** Extra X13: in the main of setup_project.py's install.py, the Environment
    objects are all built (each after its target's logger) before any
    installation, outside any [try]. If one loaded config lacks
    'odoo_version' or 'port', main ends with an uncaught exception before
    the banner: no environment is installed, not even those whose config
    is complete, and the state is the one setup_environments left. The
    exception is the constructor's ValueError when setting up a logger
    never raises and, for a remote run, building the remote executor
    never raises; otherwise it may be the first of those that raises. *)
Theorem setup_main_incomplete_config_blocks_all {H : Type}
    (validate : H → bool * H) (banner : list (string * config) → H → py unit * H)
    (summary : list (string * config) → list (string * bool) → H → py unit * H)
    (inst : string → config → H → py bool * H) (slog : string → H → py unit * H)
    (remote : bool) (rx : config → H → py unit * H) (load : H → lc_result)
    (h h1 : H) (configs : list (string * config)) (n : string) (c : config) :
  validate h = (true, h1) →
  load h1 = LcOk configs →
  (n, c) ∈ configs →
  c !! "odoo_version" = None ∨ c !! "port" = None →
  ∃ e, main_setup validate banner summary inst slog remote rx load h =
         (MsUncaught e, [], snd (setup_environments slog remote rx configs h1)) ∧
       ((∀ m s, fst (slog m s) = inr tt) → (remote = true → ∀ cf s, fst (rx cf s) = inr tt) →
        ∃ msg, e = ValueError msg).
Proof.
  intros Hv Hl Hin Hm. unfold main_setup. rewrite Hv. simpl. rewrite Hl.
  destruct (setup_environments_fail slog remote rx configs n c h1 Hin Hm) as (e & He & Hval).
  destruct (setup_environments slog remote rx configs h1) as [[e'|envs] h2];
    simpl in He; [|discriminate].
  injection He as ->. exists e. split; [reflexivity|exact Hval].
Qed.

Lemma setup_main_incomplete_config_blocks_all_witness :
  ∃ e, main_setup (λ n, (true, n)) (λ _ n, (inr tt, n)) (λ _ _ n, (inr tt, n))
           (λ _ _ n, (inr true, S n)) (λ _ n, (inr tt, S n)) false (λ _ n, (inr tt, n))
           (λ _, LcOk [("uat", {[ "odoo_version" := YStr "16.0"; "port" := YInt 8070 ]});
                       ("testing", {[ "odoo_version" := YStr "16.0" ]})])
           0%nat = (MsUncaught e, [], 2%nat) ∧
       ((∀ (m : string) (s : nat), fst ((λ _ n, (inr tt, S n)) m s : py unit * nat) = inr tt) →
        (false = true → ∀ (cf : config) (s : nat), fst ((λ _ n, (inr tt, n)) cf s : py unit * nat) = inr tt) →
        ∃ msg, e = ValueError msg).
Proof.
  edestruct (setup_main_incomplete_config_blocks_all (λ n, (true, n)) (λ _ n, (inr tt, n))
           (λ _ _ n, (inr tt, n)) (λ _ _ n, (inr true, S n)) (λ _ n, (inr tt, S n)) false
           (λ _ n, (inr tt, n))
           (λ _, LcOk [("uat", {[ "odoo_version" := YStr "16.0"; "port" := YInt 8070 ]});
                       ("testing", {[ "odoo_version" := YStr "16.0" ]})])
           0%nat 0%nat
           [("uat", {[ "odoo_version" := YStr "16.0"; "port" := YInt 8070 ]});
                       ("testing", {[ "odoo_version" := YStr "16.0" ]})] "testing" {[ "odoo_version" := YStr "16.0" ]})
    as (e & He & Hv).
  - reflexivity.
  - reflexivity.
  - right. left.
  - right. vm_compute. reflexivity.
  - exists e. split; [rewrite He; reflexivity|exact Hv].
Defined.

(** Extra X14: when main of setup_project.py's install.py gets past loading
    and the Environment constructors and ends by its own exit code, the
    results dict holds exactly the loaded targets, in the loaded order
    (one install attempt each), and the exit code is 0 exactly when every
    [env.install()] returned True; an install that raised counts as
    False. *)
Theorem setup_main_exit_code {H : Type}
    (validate : H → bool * H) (banner : list (string * config) → H → py unit * H)
    (summary : list (string * config) → list (string * bool) → H → py unit * H)
    (inst : string → config → H → py bool * H) (slog : string → H → py unit * H)
    (remote : bool) (rx : config → H → py unit * H) (load : H → lc_result)
    (h h1 h' : H) (configs : list (string * config)) (code : Z) (results : list (string * bool)) :
  validate h = (true, h1) →
  load h1 = LcOk configs →
  NoDup (map fst configs) →
  main_setup validate banner summary inst slog remote rx load h = (MsExit code, results, h') →
  map fst results = map fst configs ∧ (code = 0%Z ↔ Forall (λ p, snd p = true) results).
Proof.
  intros Hv Hl Hnd. unfold main_setup. rewrite Hv. simpl. rewrite Hl.
  destruct (setup_environments slog remote rx configs h1) as [[e|envs] h2] eqn:Hs; [discriminate|].
  pose proof (setup_environments_names slog remote rx configs envs h1 ltac:(rewrite Hs; reflexivity))
    as Hn.
  destruct (banner envs h2) as [[e|[]] h3]; [discriminate|]. cbv beta iota.
  pose proof (setup_install_loop_keys inst envs ltac:(rewrite Hn; exact Hnd) [] h3 ltac:(set_solver))
    as Hk.
  destruct (setup_install_loop inst envs [] h3) as [res h4]. simpl in Hk.
  destruct (summary envs res h4) as [[e|[]] h5]; [discriminate|].
  intros [= <- <- <-]. split; [rewrite Hk, Hn; reflexivity|].
  rewrite List.Forall_forall. destruct (forallb snd res) eqn:Ef.
  - rewrite forallb_forall in Ef. split; [|reflexivity]. intros _ p Hp. apply Ef, Hp.
  - split; [discriminate|]. intros Hall. exfalso.
    assert (forallb snd res = true) as Ht by (apply forallb_forall; intros p Hp; apply Hall, Hp).
    congruence.
Qed.

Lemma setup_main_exit_code_witness :
  let inst := λ (n : string) (_ : config) (k : nat), if String.eqb n "testing" then (inl OSError, S k) else (inr true, S k) in
  let load := λ _ : nat, LcOk [("uat", {[ "odoo_version" := YStr "16.0"; "port" := YInt 8070 ]});
                              ("testing", {[ "odoo_version" := YStr "16.0"; "port" := YInt 8071 ]})] in
  main_setup (λ n, (true, n)) (λ _ n, (inr tt, n)) (λ _ _ n, (inr tt, n)) inst
    (λ _ n, (inr tt, n)) true (λ _ n, (inr tt, n)) load 0%nat
    = (MsExit 1, [("uat", true); ("testing", false)], 2%nat) ∧
  (map fst [("uat", true); ("testing", false)] = ["uat"; "testing"] ∧
   (1%Z = 0%Z ↔ Forall (λ p : string * bool, snd p = true) [("uat", true); ("testing", false)])).
Proof.
  intros inst load. split; [vm_compute; reflexivity|].
  apply (setup_main_exit_code (λ n, (true, n)) (λ _ n, (inr tt, n)) (λ _ _ n, (inr tt, n)) inst
           (λ _ n, (inr tt, n)) true (λ _ n, (inr tt, n)) load
           0%nat 0%nat 2%nat
           [("uat", {[ "odoo_version" := YStr "16.0"; "port" := YInt 8070 ]});
                              ("testing", {[ "odoo_version" := YStr "16.0"; "port" := YInt 8071 ]})] 1%Z [("uat", true); ("testing", false)]).
  - reflexivity.
  - reflexivity.
  - vm_compute. repeat constructor; set_solver.
  - vm_compute. reflexivity.
Defined.

(** *** Environment.status *)

Lemma systemctl_is_active_strip (h : host) (svc : string) :
  String.eqb (strip (stdout (systemctl_is_active h svc))) "active" = bool_decide (unit_state h svc = UActive).
Proof. unfold systemctl_is_active. simpl. by destruct (unit_state h svc). Qed.

(** Extra X16: Environment.status of a local Environment (no remote
    executor) reports each of its three services (<prefix>odoo, nginx,
    postgresql) as True exactly when systemd reports the unit active; a
    reloading, activating, deactivating, failed or unknown unit counts as
    False. *)
Theorem environment_status_active (h : host) (cfg : config) (p : yval) :
  cfg !! "prefix" = Some p →
  environment_status None h cfg =
    Some [("odoo_service", bool_decide (unit_state h (py_str p +:+ "odoo") = UActive));
          ("nginx", bool_decide (unit_state h "nginx" = UActive));
          ("postgres", bool_decide (unit_state h "postgresql" = UActive))].
Proof.
  intros Hp. unfold environment_status. rewrite Hp. rewrite !systemctl_is_active_strip. reflexivity.
Qed.

Lemma environment_status_active_witness :
  let h := {| h_users := []; h_roles := []; h_dbs := [];
              h_units := [("prod_odoo", UActive); ("nginx", UReloading)];
              h_listen := []; h_paths := [] |} in
  environment_status None h {[ "prefix" := YStr "prod_" ]} =
    Some [("odoo_service", bool_decide (unit_state h ("prod_" +:+ "odoo") = UActive));
          ("nginx", bool_decide (unit_state h "nginx" = UActive));
          ("postgres", bool_decide (unit_state h "postgresql" = UActive))].
Proof.
  intros h. apply (environment_status_active h {[ "prefix" := YStr "prod_" ]} (YStr "prod_")).
  reflexivity.
Defined.

(** *** Logging setup *)

Lemma getLogger_store (s : log_state) (name : string) (lg : logger) :
  getLogger (store_logger s name lg) name = lg.
Proof. unfold getLogger, store_logger. simpl. by rewrite lookup_insert_eq. Qed.

(** Extra X17: with the embedded lib/logger.py, the first setup_logger for a
    name whose logger has no handlers attaches a rotating file handler for
    the given file and a stdout handler, sets the level (DEBUG or INFO)
    and registers the name; any later setup_logger for the name changes
    nothing: its file and debug flag are ignored. *)
Theorem setup_logger_second_call_ignored (name f : string) (d : bool) (s : log_state) :
  name ∉ ls_registry s →
  lg_handlers (getLogger s name) = [] →
  let s1 := setup_logger name f d s in
  ls_loggers s1 !! name = Some {| lg_level := if d then DEBUG else INFO;
                                 lg_handlers := [RotatingFileH f; StdoutH] |} ∧
  name ∈ ls_registry s1 ∧
  ∀ f' d', setup_logger name f' d' s1 = s1.
Proof.
  intros Hr Hh s1. unfold s1, setup_logger.
  rewrite decide_False by exact Hr. simpl. rewrite Hh. simpl.
  split; [rewrite lookup_insert_eq; unfold add_handlers, set_level; simpl; rewrite Hh; reflexivity|].
  split; [set_solver|]. intros f' d'. rewrite decide_True by set_solver. reflexivity.
Qed.

Lemma setup_logger_second_call_ignored_witness :
  let s0 := {| ls_loggers := ∅; ls_registry := ∅ |} in
  let s1 := setup_logger "main" "./logs/main.log" false s0 in
  ls_loggers s1 !! "main" = Some {| lg_level := INFO; lg_handlers := [RotatingFileH "./logs/main.log"; StdoutH] |} ∧
  "main" ∈ ls_registry s1 ∧
  ∀ f' d', setup_logger "main" f' d' s1 = s1.
Proof.
  intros s0 s1. apply (setup_logger_second_call_ignored "main" "./logs/main.log" false s0).
  - set_solver.
  - reflexivity.
Defined.

(** Extra X18: with the embedded lib/logger.py, calling get_logger for a name
    before setup_logger attaches a stdout handler, so the following
    setup_logger finds handlers and returns early: the log file never gets
    a handler and the name is never registered (the level is still set). *)
Theorem get_logger_before_setup_no_file (name f : string) (d : bool) (s : log_state) :
  name ∉ ls_registry s →
  lg_handlers (getLogger s name) = [] →
  let s2 := setup_logger name f d (get_logger name s) in
  ls_loggers s2 !! name = Some {| lg_level := if d then DEBUG else INFO; lg_handlers := [StdoutH] |} ∧
  name ∉ ls_registry s2.
Proof.
  intros Hr Hh s2. unfold s2, get_logger.
  rewrite decide_False by exact Hr. cbn [set_level lg_handlers]. rewrite Hh.
  unfold setup_logger. rewrite decide_False by (simpl; exact Hr).
  rewrite getLogger_store. cbn [set_level add_handlers lg_handlers]. rewrite Hh. simpl.
  split; [rewrite lookup_insert_eq; unfold set_level, add_handlers; simpl; rewrite Hh; reflexivity|exact Hr].
Qed.

Lemma get_logger_before_setup_no_file_witness :
  let s0 := {| ls_loggers := ∅; ls_registry := ∅ |} in
  let s2 := setup_logger "main" "./logs/main.log" true (get_logger "main" s0) in
  ls_loggers s2 !! "main" = Some {| lg_level := DEBUG; lg_handlers := [StdoutH] |} ∧
  "main" ∉ ls_registry s2.
Proof.
  intros s0 s2. apply (get_logger_before_setup_no_file "main" "./logs/main.log" true s0).
  - set_solver.
  - reflexivity.
Defined.

(** Extra X19: with src/lib/logger.py, a second setup_logger for the same
    name keeps the file handler of the first call (its own file gets no
    handler) but applies its own level: the logger ends with the first
    file and the second call's level. *)
Theorem lib_setup_logger_second_call (name f f' : string) (d d' : bool) (s : log_state) :
  lg_handlers (getLogger s name) = [] →
  ls_loggers (lib_setup_logger name f' d' (lib_setup_logger name f d s)) !! name =
    Some {| lg_level := if d' then DEBUG else INFO; lg_handlers := [FileH f] |}.
Proof.
  intros Hh. unfold lib_setup_logger at 2. cbn [set_level lg_handlers]. rewrite Hh.
  unfold lib_setup_logger. rewrite getLogger_store. cbn [set_level add_handlers lg_handlers].
  rewrite Hh. simpl. rewrite lookup_insert_eq. unfold set_level, add_handlers. simpl. rewrite Hh. reflexivity.
Qed.

Lemma lib_setup_logger_second_call_witness :
  ls_loggers (lib_setup_logger "uat" "b.log" true
                (lib_setup_logger "uat" "a.log" false {| ls_loggers := ∅; ls_registry := ∅ |})) !! "uat" =
    Some {| lg_level := DEBUG; lg_handlers := [FileH "a.log"] |}.
Proof.
  apply (lib_setup_logger_second_call "uat" "a.log" "b.log" false true). reflexivity.
Defined.

(** *** check_port of verify_odoo.py *)

Lemma contains_mid (pat pre post : string) :
  pat ≠ EmptyString → contains pat (pre +:+ pat +:+ post) = true.
Proof.
  intros Hne. unfold contains.
  destruct (String.index 0 pat (pre +:+ pat +:+ post)) eqn:E; [reflexivity|].
  exfalso. apply (String.index_correct3 0 (String.length pre) pat _ E Hne); [lia|].
  apply substring_app_mid.
Qed.

Lemma list_ascii_of_string_app (a b : string) :
  list_ascii_of_string (a +:+ b) = (list_ascii_of_string a ++ list_ascii_of_string b)%list.
Proof. induction a as [|c a IH]; simpl; [reflexivity|by rewrite IH]. Qed.

Lemma lstrip_l_split (l : list ascii) :
  ∃ w, l = (w ++ lstrip_l l)%list ∧ Forall (λ c, is_ws c = true) w.
Proof.
  induction l as [|c l IH]; simpl; [exists []; auto|].
  destruct (is_ws c) eqn:E.
  - destruct IH as (w & Hw & Hf). exists (c :: w). simpl. rewrite <- Hw. auto.
  - exists []. auto.
Qed.

(** Every character of a text that strips to [t] is whitespace or a
    character of [t]. *)
Lemma strip_chars (s t : string) (c : ascii) :
  strip s = t → c ∈ list_ascii_of_string s → is_ws c = true ∨ c ∈ list_ascii_of_string t.
Proof.
  unfold strip. intros Hs Hc.
  destruct (lstrip_l_split (list_ascii_of_string s)) as (w1 & E1 & F1).
  destruct (lstrip_l_split (rev (lstrip_l (list_ascii_of_string s)))) as (w2 & E2 & F2).
  apply (f_equal list_ascii_of_string) in Hs. rewrite list_ascii_of_string_of_list_ascii in Hs.
  rewrite E1 in Hc. apply elem_of_app in Hc as [Hc|Hc].
  - left. rewrite List.Forall_forall in F1. apply F1. by apply list_elem_of_In.
  - assert (lstrip_l (list_ascii_of_string s) =
            rev (w2 ++ lstrip_l (rev (lstrip_l (list_ascii_of_string s)))))%list as E3
      by (rewrite <- E2, rev_involutive; reflexivity).
    rewrite E3, rev_app_distr, Hs in Hc. apply elem_of_app in Hc as [Hc|Hc]; [by right|].
    left. rewrite List.Forall_forall in F2. apply F2. apply list_elem_of_In in Hc. by apply in_rev.
Qed.

Lemma join_lines_chars (hits : list string) (line : string) (c : ascii) :
  line ∈ hits → c ∈ list_ascii_of_string line → c ∈ list_ascii_of_string (join_lines hits).
Proof.
  induction hits as [|x r IH]; simpl; [set_solver|].
  rewrite elem_of_cons. intros [->|Hin] Hc; rewrite !list_ascii_of_string_app, !elem_of_app; auto.
Qed.

(** Extra X20: verify_odoo.py's check_port greps the output of [ss -tulpn]
    for ':<port>' as a plain substring, so it reports a port open whenever
    some listening line contains ':<port>' followed by anything: in
    particular a port whose digits begin those of a listening port (80
    while only 8069 listens) is reported open. *)
Theorem check_port_substring_match (h : host) (port : Z) (pre t post : string) :
  (pre +:+ ":" +:+ show_Z port +:+ t +:+ post) ∈ h_listen h →
  fst (check_port h port) = true.
Proof.
  intros Hin. set (line := pre +:+ ":" +:+ show_Z port +:+ t +:+ post) in *.
  assert (Hc : contains (":" +:+ show_Z port) line = true).
  { unfold line. rewrite (str_app_assoc ":" (show_Z port)). apply contains_mid. discriminate. }
  unfold check_port, run_command_verify. cbn -[strip contains show_Z].
  assert (Hh : line ∈ List.filter (contains (":" +:+ show_Z port)) (h_listen h)).
  { apply list_elem_of_In, filter_In. split; [by apply list_elem_of_In|exact Hc]. }
  destruct (List.filter (contains (":" +:+ show_Z port)) (h_listen h)) as [|x r] eqn:Ef;
    [set_solver|].
  cbn -[strip join_lines]. destruct (String.eqb_spec (strip (join_lines (x :: r))) "no") as [Hno|]; [|reflexivity].
  exfalso. assert (Hcolon : ":"%char ∈ list_ascii_of_string (join_lines (x :: r))).
  { apply (join_lines_chars _ line); [exact Hh|]. unfold line.
    rewrite !list_ascii_of_string_app. simpl. set_solver. }
  destruct (strip_chars _ _ _ Hno Hcolon) as [Hw|Hw]; [discriminate|]. simpl in Hw. set_solver.
Qed.

Lemma check_port_substring_match_witness :
  let h := {| h_users := []; h_roles := []; h_dbs := []; h_units := [];
              h_listen := ["tcp LISTEN 0 128 0.0.0.0:8069 0.0.0.0:* users:((odoo))"]; h_paths := [] |} in
  fst (check_port h 80) = true.
Proof.
  intros h. apply (check_port_substring_match h 80 "tcp LISTEN 0 128 0.0.0.0" "69"
                     " 0.0.0.0:* users:((odoo))").
  vm_compute. left.
Defined.
